(** * sigshell: foreground execution and job control

    A shallow embedding of [sigshell.c].  The shell is a single process that
    talks to the kernel through system calls, so the embedding threads an
    explicit [World] (the kernel-side state the code can observe or change:
    the terminal's foreground process group, the signal dispositions of the
    process, the globals [shell_pgid] and [shell_tmodes], [errno]) together
    with the list of calls made so far.  Values that only the environment
    decides (what [fork], [execvp], [waitpid] and [chdir] return) are read
    from an [Oracle]. *)

From Stdlib Require Import ZArith Lia Bool List Ascii String.
From stdpp Require Import base gmap strings list.
Import ListNotations.

Local Open Scope string_scope.
Local Open Scope list_scope.
Local Open Scope Z_scope.

(** ** C strings *)

Module CString.

(** A C string is modelled by the characters before its terminating NUL, so
    a well-formed one holds no NUL itself ([nul_free]). *)
Definition code (c : ascii) : Z := Z.of_N (N_of_ascii c).

Fixpoint nul_free (s : string) : bool :=
  match s with
  | EmptyString => true
  | String c s' => negb (code c =? 0) && nul_free s'
  end.

(** [strcmp]: the difference of the first pair of bytes that differ, read
    as [unsigned char]; the end of a string reads as the byte 0. *)
Fixpoint strcmp (a b : string) : Z :=
  match a, b with
  | EmptyString, EmptyString => 0
  | EmptyString, String d _ => 0 - code d
  | String c _, EmptyString => code c - 0
  | String c a', String d b' =>
      if code c =? code d then strcmp a' b' else code c - code d
  end.

Fixpoint strlen (s : string) : Z :=
  match s with
  | EmptyString => 0
  | String _ s' => 1 + strlen s'
  end.

Fixpoint mem_char (c : ascii) (set : string) : bool :=
  match set with
  | EmptyString => false
  | String d set' => (code c =? code d) || mem_char c set'
  end.

(** [strcspn s reject]: length of the longest prefix of [s] that holds no
    byte of [reject]. *)
Fixpoint strcspn (s reject : string) : nat :=
  match s with
  | EmptyString => O
  | String c s' => if mem_char c reject then O else S (strcspn s' reject)
  end.

(** [s[n] = 0]: the string now ends at index [n]. *)
Fixpoint store_nul (n : nat) (s : string) : string :=
  match n, s with
  | O, _ => EmptyString
  | S n', String c s' => String c (store_nul n' s')
  | S _, EmptyString => EmptyString
  end.

(** [strspn]-style skip of the leading delimiters, as [strtok] does before
    it looks for a token. *)
Fixpoint skip_delims (delim s : string) : string :=
  match s with
  | EmptyString => EmptyString
  | String c s' => if mem_char c delim then skip_delims delim s' else s
  end.

(** The token that starts at [s] and what follows the delimiter closing it
    (that delimiter is overwritten with NUL). *)
Fixpoint scan_token (delim s : string) : string * string :=
  match s with
  | EmptyString => (EmptyString, EmptyString)
  | String c s' =>
      if mem_char c delim then (EmptyString, s')
      else let '(t, r) := scan_token delim s' in (String c t, r)
  end.

(** [strtok] with its saved pointer made explicit: the argument is the
    text still to be scanned, the result the token ([None] for NULL) and the
    text saved for the next call. *)
Definition strtok (s delim : string) : option string * string :=
  match skip_delims delim s with
  | EmptyString => (None, EmptyString)
  | String c s' =>
      let '(t, r) := scan_token delim (String c s') in (Some t, r)
  end.

End CString.

(** ** Platform constants and the wait-status macros *)

Module Posix.

Definition STDIN_FILENO : Z := 0.

(** Signal numbers of <signal.h> (Linux). *)
Definition SIGINT : Z := 2.
Definition SIGQUIT : Z := 3.
Definition SIGKILL : Z := 9.
Definition SIGSTOP : Z := 19.
Definition SIGTSTP : Z := 20.
Definition SIGTTIN : Z := 21.
Definition SIGTTOU : Z := 22.
Definition NSIG : Z := 65.

Definition WUNTRACED : Z := 2.

Definition ESRCH : Z := 3.
Definition EINVAL : Z := 22.
Definition ENOTTY : Z := 25.

Inductive sighandler : Type :=
  | SIG_DFL
  | SIG_IGN
  | Handler (f : string).

(** Modelled from the spec: the status macros of <sys/wait.h> are used by
    [execute_command] but belong to the platform headers, not to src/.
    Their meaning is the one spec section 4.4 relies on (exit value in the
    low-order byte of the exit code, number of the terminating signal, stop
    event); the bit layout is the one of Linux. *)
Definition WEXITSTATUS (status : Z) : Z := Z.shiftr (Z.land status 65280) 8.
Definition WTERMSIG (status : Z) : Z := Z.land status 127.
Definition WIFEXITED (status : Z) : bool := WTERMSIG status =? 0.
Definition signed_char (x : Z) : Z :=
  let b := Z.land x 255 in if b <? 128 then b else b - 256.
Definition WIFSIGNALED (status : Z) : bool :=
  0 <? Z.shiftr (signed_char (Z.land status 127 + 1)) 1.
Definition WIFSTOPPED (status : Z) : bool := Z.land status 255 =? 127.

(** The status word the kernel hands to [waitpid]: for a child that called
    [exit(code)], for one killed by signal [sig] (with or without a core
    dump), and for one stopped by [sig]. *)
Definition W_EXITCODE (code sig : Z) : Z := Z.lor (Z.shiftl code 8) sig.
Definition W_STOPCODE (sig : Z) : Z := Z.lor (Z.shiftl sig 8) 127.
Definition WCOREFLAG : Z := 128.
Definition status_of_exit (code : Z) : Z := W_EXITCODE (Z.land code 255) 0.
Definition status_of_kill (sig : Z) (core : bool) : Z :=
  Z.lor sig (if core then WCOREFLAG else 0).

End Posix.

(** ** The process and its view of the kernel *)

Module Kernel.
Import Posix.

(** One entry per call that leaves the process, in program order.  Format
    strings are kept as written in the source (escape sequences are not
    expanded); [Enter_execute_command] marks the entry of the core with its
    actual parameters. *)
Inductive event : Type :=
  | Call_isatty (fd : Z)
  | Call_fork
  | Call_getpid
  | Call_getpgrp
  | Call_setpgid (pid pgid : Z)
  | Call_sigaction (sig : Z) (h : sighandler)
  | Call_signal (sig : Z) (h : sighandler)
  | Call_execvp (file : string) (argv : list string)
  | Call_tcgetpgrp (fd : Z)
  | Call_tcsetpgrp (fd pgid : Z)
  | Call_tcgetattr (fd : Z)
  | Call_waitpid (pid options : Z)
  | Call_kill (pid sig : Z)
  | Call_chdir (path : string)
  | Call_fgets
  | Out_printf (fmt : string) (args : list Z)
  | Out_stderr (fmt : string)
  | Out_perror (msg : string) (err : Z)
  | Enter_execute_command (args : list string) (protect_sigint : Z).

Record World : Type := mkWorld {
  stdin_tty : bool;              (* is descriptor 0 a terminal *)
  self_pid : Z;                  (* getpid() *)
  self_pgrp : Z;                 (* getpgrp() *)
  tty_fg : Z;                    (* foreground process group of the terminal *)
  tty_attrs : Z;                 (* the terminal's line settings *)
  sigdisp : gmap Z sighandler;   (* dispositions that are not SIG_DFL *)
  shell_pgid : Z;                (* global [pid_t shell_pgid] *)
  shell_tmodes : Z;              (* global [struct termios shell_tmodes] *)
  errno : Z;
  trace : list event
}.

(** What the environment answers to the calls one command makes. *)
Record Oracle : Type := mkOracle {
  fork_ret : Z;        (* < 0 failure, 0 in the child, child's pid in the parent *)
  fork_errno : Z;
  child_pid : Z;       (* the pid of the new process, seen by the child *)
  execvp_errno : Z;    (* 0: the image is replaced; otherwise execvp fails *)
  wait_ret : Z;        (* what waitpid returns *)
  wait_status : Z;     (* the status word it stores *)
  wait_errno : Z;
  chdir_ret : Z;
  chdir_errno : Z
}.

Definition emit (e : event) (w : World) : World :=
  mkWorld (stdin_tty w) (self_pid w) (self_pgrp w) (tty_fg w) (tty_attrs w)
          (sigdisp w) (shell_pgid w) (shell_tmodes w) (errno w) (trace w ++ [e]).

Definition set_errno (e : Z) (w : World) : World :=
  mkWorld (stdin_tty w) (self_pid w) (self_pgrp w) (tty_fg w) (tty_attrs w)
          (sigdisp w) (shell_pgid w) (shell_tmodes w) e (trace w).

Definition set_tty_fg (pgid : Z) (w : World) : World :=
  mkWorld (stdin_tty w) (self_pid w) (self_pgrp w) pgid (tty_attrs w)
          (sigdisp w) (shell_pgid w) (shell_tmodes w) (errno w) (trace w).

Definition set_self (pid pgrp : Z) (w : World) : World :=
  mkWorld (stdin_tty w) pid pgrp (tty_fg w) (tty_attrs w)
          (sigdisp w) (shell_pgid w) (shell_tmodes w) (errno w) (trace w).

Definition set_sigdisp (d : gmap Z sighandler) (w : World) : World :=
  mkWorld (stdin_tty w) (self_pid w) (self_pgrp w) (tty_fg w) (tty_attrs w)
          d (shell_pgid w) (shell_tmodes w) (errno w) (trace w).

Definition set_shell_pgid (pgid : Z) (w : World) : World :=
  mkWorld (stdin_tty w) (self_pid w) (self_pgrp w) (tty_fg w) (tty_attrs w)
          (sigdisp w) pgid (shell_tmodes w) (errno w) (trace w).

Definition set_shell_tmodes (a : Z) (w : World) : World :=
  mkWorld (stdin_tty w) (self_pid w) (self_pgrp w) (tty_fg w) (tty_attrs w)
          (sigdisp w) (shell_pgid w) a (errno w) (trace w).

(** The disposition of signal [sig]: an absent entry is the default action. *)
Definition disposition (w : World) (sig : Z) : sighandler :=
  default SIG_DFL (sigdisp w !! sig).

(** *** System calls *)

Definition isatty (fd : Z) (w : World) : bool * World :=
  let w := emit (Call_isatty fd) w in
  if (fd =? STDIN_FILENO) && stdin_tty w then (true, w)
  else (false, set_errno ENOTTY w).

Definition getpid (w : World) : Z * World := (self_pid w, emit Call_getpid w).

Definition getpgrp (w : World) : Z * World := (self_pgrp w, emit Call_getpgrp w).

(** [fork]: in the child the process is a copy with a pid of its own. *)
Definition fork (o : Oracle) (w : World) : Z * World :=
  let w := emit Call_fork w in
  if fork_ret o <? 0 then (fork_ret o, set_errno (fork_errno o) w)
  else if fork_ret o =? 0 then (0, set_self (child_pid o) (self_pgrp w) w)
  else (fork_ret o, w).

(** [setpgid(pid, pgid)] on the calling process itself (pid 0 or its own
    pid); a target that is another process is refused. *)
Definition setpgid (pid pgid : Z) (w : World) : Z * World :=
  let w := emit (Call_setpgid pid pgid) w in
  if (pid =? 0) || (pid =? self_pid w) then
    (0, set_self (self_pid w) (if pgid =? 0 then self_pid w else pgid) w)
  else (-1, set_errno ESRCH w).

(** [sigaction(sig, &sa, NULL)] with handler [h], empty mask and no flags:
    refused for SIGKILL, SIGSTOP and numbers that are no signal. *)
Definition sigaction (sig : Z) (h : sighandler) (w : World) : Z * World :=
  let w := emit (Call_sigaction sig h) w in
  if (sig <? 1) || (NSIG <=? sig) || (sig =? SIGKILL) || (sig =? SIGSTOP)
  then (-1, set_errno EINVAL w)
  else (0, set_sigdisp (<[sig := h]> (sigdisp w)) w).

(** [signal(sig, h)]; its result (the previous handler) is never read. *)
Definition signal (sig : Z) (h : sighandler) (w : World) : World :=
  let w := emit (Call_signal sig h) w in
  if (sig <? 1) || (NSIG <=? sig) || (sig =? SIGKILL) || (sig =? SIGSTOP)
  then set_errno EINVAL w
  else set_sigdisp (<[sig := h]> (sigdisp w)) w.

Definition tcgetpgrp (fd : Z) (w : World) : Z * World :=
  let w := emit (Call_tcgetpgrp fd) w in
  if (fd =? STDIN_FILENO) && stdin_tty w then (tty_fg w, w)
  else (-1, set_errno ENOTTY w).

Definition tcsetpgrp (fd pgid : Z) (w : World) : Z * World :=
  let w := emit (Call_tcsetpgrp fd pgid) w in
  if (fd =? STDIN_FILENO) && stdin_tty w then (0, set_tty_fg pgid w)
  else (-1, set_errno ENOTTY w).

(** [tcgetattr(fd, &shell_tmodes)] *)
Definition tcgetattr (fd : Z) (w : World) : Z * World :=
  let w := emit (Call_tcgetattr fd) w in
  if (fd =? STDIN_FILENO) && stdin_tty w then (0, set_shell_tmodes (tty_attrs w) w)
  else (-1, set_errno ENOTTY w).

Definition kill (pid sig : Z) (w : World) : World := emit (Call_kill pid sig) w.

(** [waitpid(pid, &status, options)]: the result, the status word stored
    (meaningful when the result is positive) and the world. *)
Definition waitpid (pid options : Z) (o : Oracle) (w : World) : Z * Z * World :=
  let w := emit (Call_waitpid pid options) w in
  if wait_ret o =? -1 then (-1, wait_status o, set_errno (wait_errno o) w)
  else (wait_ret o, wait_status o, w).

(** [execvp] returns only when it fails: the result [None] stands for the
    replaced image. *)
Definition execvp (file : string) (argv : list string) (o : Oracle) (w : World)
  : option Z * World :=
  let w := emit (Call_execvp file argv) w in
  if execvp_errno o =? 0 then (None, w)
  else (Some (-1), set_errno (execvp_errno o) w).

Definition chdir (path : string) (o : Oracle) (w : World) : Z * World :=
  let w := emit (Call_chdir path) w in
  if chdir_ret o =? 0 then (0, w) else (chdir_ret o, set_errno (chdir_errno o) w).

Definition printf (fmt : string) (args : list Z) (w : World) : World :=
  emit (Out_printf fmt args) w.

Definition fprintf_stderr (fmt : string) (w : World) : World :=
  emit (Out_stderr fmt) w.

Definition perror (msg : string) (w : World) : World :=
  emit (Out_perror msg (errno w)) w.

(** The signal dispositions of a freshly executed image: caught signals go
    back to the default action, ignored ones stay ignored. *)
Definition exec_reset (h : sighandler) : sighandler :=
  match h with
  | Handler _ => SIG_DFL
  | _ => h
  end.

Definition disposition_after_exec (w : World) (sig : Z) : sighandler :=
  exec_reset (disposition w sig).

End Kernel.

(** ** The shell *)

Module Sigshell.
Import CString Posix Kernel.

Definition MAX_CMD_LEN : Z := 1024.
Definition MAX_ARGS : Z := 64.

(** The delimiter set [" \t\n"] of [parse_command] and the ["\n"] of [main]. *)
Definition delims : string :=
  String " "%char (String "009"%char (String "010"%char EmptyString)).
Definition newline : string := String "010"%char EmptyString.

(** How a function of the shell ends. *)
Inductive outcome : Type :=
  | Returns (w : World)                                    (* back to its caller *)
  | Exits (status : Z) (w : World)                         (* the process called exit *)
  | Execs (file : string) (argv : list string) (w : World) (* image replaced *)
  | Fault (w : World).                                     (* a NULL pointer was read *)

(** The loop of [parse_command]; [room] is [MAX_ARGS - 1 - i], [token] the
    result of the last [strtok] and [saved] the text [strtok] kept. *)
Fixpoint parse_loop (room : nat) (token : option string) (saved : string)
  : list string :=
  match room, token with
  | S room', Some t =>
      let '(token', saved') := strtok saved delims in
      t :: parse_loop room' token' saved'
  | _, _ => []
  end.

(** [parse_command(cmd, args)]: the number of arguments returned and the
    NULL-terminated vector left in [args]. *)
Definition parse_command (cmd : string) : Z * list string :=
  let '(token, saved) := strtok cmd delims in
  let args := parse_loop (Z.to_nat (MAX_ARGS - 1)) token saved in
  (Z.of_nat (length args), args).

Definition protected : list string := ["sleep"; "critical"].

Fixpoint protected_scan (cmd : string) (entries : list string) : Z :=
  match entries with
  | [] => 0
  | p :: entries' =>
      if strcmp cmd p =? 0 then 1 else protected_scan cmd entries'
  end.

Definition should_protect_sigint (cmd : string) : Z :=
  protected_scan cmd protected.

(** *** The branches taken after [waitpid] *)

Inductive WaitOutcome : Type :=
  | StoppedBySignal
  | Exited (code : Z)
  | TerminatedBySignal (sig : Z)
  | WaitFailed (err : Z)
  | NoReport.

(** The conditions of lines 119-134, in the order the code tests them. *)
Definition wait_outcome (result status err : Z) : WaitOutcome :=
  if 0 <? result then
    if WIFSTOPPED status then StoppedBySignal
    else if WIFEXITED status then Exited (WEXITSTATUS status)
    else if WIFSIGNALED status then TerminatedBySignal (WTERMSIG status)
    else NoReport
  else if result =? -1 then WaitFailed err
  else NoReport.

(** The bodies of those branches. *)
Definition report_outcome (pid : Z) (oc : WaitOutcome) (w : World) : World :=
  match oc with
  | StoppedBySignal =>
      let w := printf "\n[Shell] Process %d suspended.\n" [pid] w in
      printf "[Shell] Use 'kill -CONT %d' to resume it (or a job control command in a real shell).\n" [pid] w
  | Exited exit_status =>
      if negb (exit_status =? 0)
      then printf "[Shell] Process exited with status %d\n" [exit_status] w
      else w
  | TerminatedBySignal sig =>
      printf "[Shell] Process terminated by signal %d\n" [sig] w
  | WaitFailed _ => perror "waitpid failed" w
  | NoReport => w
  end.

(** Lines 111-114: hand the terminal to the child's process group. *)
Definition grant_foreground (child_pgid : Z) (w : World) : World :=
  let '(tty, w) := isatty STDIN_FILENO w in
  if tty then snd (tcsetpgrp STDIN_FILENO child_pgid w) else w.

(** Lines 136-139: take the terminal back. *)
Definition reclaim_foreground (w : World) : World :=
  let '(tty, w) := isatty STDIN_FILENO w in
  if tty then snd (tcsetpgrp STDIN_FILENO (shell_pgid w) w) else w.

(** Lines 116-134, first half: the one [waitpid] on the child and the branch
    its answer selects. *)
Definition wait_for (pid : Z) (o : Oracle) (w : World) : WaitOutcome * World :=
  let '(result, status, w) := waitpid pid WUNTRACED o w in
  (wait_outcome result status (errno w), w).

(** Lines 73-101: what the child does. *)
Definition child_branch (args : list string) (protect_sigint : Z)
  (o : Oracle) (w : World) : outcome :=
  let '(_, w) := setpgid 0 0 w in
  let '(_, w) := sigaction SIGTSTP SIG_DFL w in
  let w :=
    if negb (protect_sigint =? 0) then
      let '(_, w) := sigaction SIGINT SIG_IGN w in
      let '(me, w) := getpid w in
      printf "[Child] This process will ignore Ctrl+C (PID: %d)\n" [me] w
    else snd (sigaction SIGINT SIG_DFL w) in
  match args with
  | [] => Fault w
  | file :: _ =>
      let '(r, w) := execvp file args o w in
      match r with
      | None => Execs file args w
      | Some r =>
          if r <? 0 then Exits 1 (perror "Command execution failed" w)
          else Returns w
      end
  end.

(** Lines 103-139: what the shell does while the child runs. *)
Definition parent_branch (pid protect_sigint : Z) (o : Oracle) (w : World)
  : World :=
  let child_pgid := pid in
  let w :=
    if negb (protect_sigint =? 0)
    then printf "[Shell] Process %d is protected from SIGINT (Ctrl+C won't work)\n" [pid] w
    else w in
  let w := grant_foreground child_pgid w in
  let '(oc, w) := wait_for pid o w in
  let w := report_outcome pid oc w in
  reclaim_foreground w.

Definition execute_command (args : list string) (protect_sigint : Z)
  (o : Oracle) (w : World) : outcome :=
  let w := emit (Enter_execute_command args protect_sigint) w in
  let '(_, w) := isatty STDIN_FILENO w in
  let '(pid, w) := fork o w in
  if pid <? 0 then Returns (perror "fork failed" w)
  else if pid =? 0 then child_branch args protect_sigint o w
  else Returns (parent_branch pid protect_sigint o w).

(** *** Built-in commands *)

Definition help_text (w : World) : World :=
  let w := printf "\n=== Custom Signal Handling Shell ===\n" [] w in
  let w := printf "Features:\n" [] w in
  let w := printf "  - Ctrl+C in shell shows message instead of exiting\n" [] w in
  let w := printf "  - 'sleep' commands ignore Ctrl+C (SIGINT protected)\n" [] w in
  let w := printf "  - Ctrl+Z suspends process directly (proper job control set up)\n" [] w in
  let w := printf "\nBuilt-in commands:\n" [] w in
  let w := printf "  help     - Show this help message\n" [] w in
  let w := printf "  exit     - Exit the shell\n" [] w in
  let w := printf "  cd <dir> - Change directory\n" [] w in
  let w := printf "\nTry these:\n" [] w in
  let w := printf "  sleep 10     - Try pressing Ctrl+C (won't work!)\n" [] w in
  let w := printf "  ls -la       - Try pressing Ctrl+C (will work)\n" [] w in
  let w := printf "  cat          - Try pressing Ctrl+Z (will suspend)\n" [] w in
  printf "\n" [] w.

Definition handle_builtin (args : list string) (o : Oracle) (w : World)
  : Z * World :=
  match args with
  | [] => (1, w)
  | arg0 :: rest =>
      if strcmp arg0 "exit" =? 0 then (2, printf "Goodbye!\n" [] w)
      else if strcmp arg0 "help" =? 0 then (1, help_text w)
      else if strcmp arg0 "cd" =? 0 then
        match rest with
        | [] => (1, fprintf_stderr "cd: missing argument\n" w)
        | arg1 :: _ =>
            let '(r, w) := chdir arg1 o w in
            (1, if negb (r =? 0) then perror "cd failed" w else w)
        end
      else (0, w)
  end.

(** *** Initialisation *)

(** The loop of [init_shell].  Each [kill(-shell_pgid, SIGTTIN)] hands
    control to the environment; [resumes] lists the foreground group the
    terminal has each time the shell runs again.  [None]: the shell is never
    put in the foreground and stays in the loop. *)
Fixpoint await_foreground (resumes : list Z) (w : World) : option World :=
  let '(fg, w) := tcgetpgrp STDIN_FILENO w in
  let '(pg, w) := getpgrp w in
  let w := set_shell_pgid pg w in
  if negb (fg =? shell_pgid w) then
    let w := kill (- shell_pgid w) SIGTTIN w in
    match resumes with
    | [] => None
    | fg' :: resumes' => await_foreground resumes' (set_tty_fg fg' w)
    end
  else Some w.

Definition init_shell (resumes : list Z) (w : World) : option World :=
  let '(tty, w) := isatty STDIN_FILENO w in
  if tty then
    match await_foreground resumes w with
    | None => None
    | Some w =>
        let w := signal SIGINT (Handler "sigint_handler") w in
        let w := signal SIGQUIT SIG_IGN w in
        let w := signal SIGTSTP SIG_IGN w in
        let w := signal SIGTTIN SIG_IGN w in
        let w := signal SIGTTOU SIG_IGN w in
        let '(_, w) := setpgid (shell_pgid w) (shell_pgid w) w in
        let '(_, w) := tcsetpgrp STDIN_FILENO (shell_pgid w) w in
        let '(_, w) := tcgetattr STDIN_FILENO w in
        Some w
    end
  else Some w.

(** *** The prompt loop *)

(** One [fgets]: a read that fails without end of file, or a line (with its
    newline, when it fits) together with the answers the environment gives
    while that line is served.  The end of the list is the end of file. *)
Inductive input : Type :=
  | ReadError
  | Line (buf : string) (o : Oracle).

(** How one turn of [while (1)] ends. *)
Inductive turn : Type :=
  | Continue (w : World)
  | Break (w : World)
  | Leaves (oc : outcome).

Definition prompt (w : World) : World :=
  emit Call_fgets (printf "sigshell> " [] w).

Definition loop_body (i : input) (w : World) : turn :=
  let w := prompt w in
  match i with
  | ReadError => Continue w
  | Line buf o =>
      let cmd := store_nul (strcspn buf newline) buf in
      if strlen cmd =? 0 then Continue w else
      let '(argc, args) := parse_command cmd in
      if argc =? 0 then Continue w else
      let '(builtin_result, w) := handle_builtin args o w in
      if builtin_result =? 2 then Break w
      else if builtin_result =? 1 then Continue w
      else
        match args with
        | [] => Leaves (Fault w)
        | arg0 :: _ =>
            let protect := should_protect_sigint arg0 in
            match execute_command args protect o w with
            | Returns w => Continue w
            | oc => Leaves oc
            end
        end
  end.

Fixpoint main_loop (ins : list input) (w : World) : outcome :=
  match ins with
  | [] => Returns (printf "\n" [] (prompt w))
  | i :: ins' =>
      match loop_body i w with
      | Continue w => main_loop ins' w
      | Break w => Returns w
      | Leaves oc => oc
      end
  end.

Definition banner (w : World) : World :=
  let w := printf "\n=== Custom Signal Handling Shell ===\n" [] w in
  let w := printf "Type 'help' for usage information.\n" [] w in
  printf "Type 'exit' to quit.\n\n" [] w.

(** [main]; [None] when [init_shell] never returns. *)
Definition main (resumes : list Z) (ins : list input) (w : World)
  : option outcome :=
  match init_shell resumes w with
  | None => None
  | Some w =>
      Some match main_loop ins (banner w) with
           | Returns w => Exits 0 w
           | oc => oc
           end
  end.

(** *** Vocabulary of the statements *)

Definition world_of (oc : outcome) : World :=
  match oc with
  | Returns w | Exits _ w | Execs _ _ w | Fault w => w
  end.

Definition turn_world (t : turn) : World :=
  match t with
  | Continue w | Break w => w
  | Leaves oc => world_of oc
  end.

(** The process [execute_command] leaves behind when it runs as the child
    (where [fork] answers 0), by the flag it was called with. *)
Definition child_world (args : list string) (o : Oracle) (w : World)
  (protect_sigint : Z) : World :=
  world_of (execute_command args protect_sigint o w).

(** Two worlds that differ at most in [errno] and in the calls recorded. *)
Definition same_state (w w' : World) : Prop :=
  stdin_tty w' = stdin_tty w /\ self_pid w' = self_pid w /\
  self_pgrp w' = self_pgrp w /\ tty_fg w' = tty_fg w /\
  tty_attrs w' = tty_attrs w /\ sigdisp w' = sigdisp w /\
  shell_pgid w' = shell_pgid w /\ shell_tmodes w' = shell_tmodes w.

(** Kinds of events: the [waitpid] calls, the [tcsetpgrp] calls, the calls
    that install a disposition for [sig], the reads of a line at the prompt,
    and what is printed. *)
Definition is_waitpid (e : event) : bool :=
  match e with Call_waitpid _ _ => true | _ => false end.

Definition is_tcsetpgrp (e : event) : bool :=
  match e with Call_tcsetpgrp _ _ => true | _ => false end.

Definition installs (sig : Z) (e : event) : bool :=
  match e with
  | Call_signal s _ | Call_sigaction s _ => s =? sig
  | _ => false
  end.

Definition is_prompt (e : event) : bool :=
  match e with Call_fgets => true | _ => false end.

Definition is_output (e : event) : bool :=
  match e with
  | Out_printf _ _ | Out_stderr _ | Out_perror _ _ => true
  | _ => false
  end.

(** Events that change nothing in the kernel. *)
Definition is_passive (e : event) : bool :=
  match e with
  | Call_getpid => true
  | _ => is_output e
  end.

Definition is_install (e : event) : bool :=
  match e with Call_signal _ _ | Call_sigaction _ _ => true | _ => false end.

(** Events that install no disposition, enter no core and show no prompt;
    and those that may install one. *)
Definition is_plain (e : event) : bool :=
  match e with
  | Call_signal _ _ | Call_sigaction _ _ | Call_fgets
  | Enter_execute_command _ _ => false
  | _ => true
  end.

Definition is_inner (e : event) : bool :=
  match e with
  | Call_fgets | Enter_execute_command _ _ => false
  | _ => true
  end.

(** The core entered with an empty argument vector. *)
Definition is_enter_empty (e : event) : bool :=
  match e with Enter_execute_command [] _ => true | _ => false end.

(** The calls of a guarded [tcsetpgrp]: lines 112-114 and 137-139. *)
Definition tty_calls (tty : bool) (pgid : Z) : list event :=
  if tty then [Call_isatty STDIN_FILENO; Call_tcsetpgrp STDIN_FILENO pgid]
  else [Call_isatty STDIN_FILENO].

(** What the shell prints for the branch [oc] when [errno] is [err]: the
    output of [report_outcome] on an empty trace. *)
Definition blank (err : Z) : World := mkWorld false 0 0 0 0 ∅ 0 0 err [].
Definition reports_of (pid : Z) (oc : WaitOutcome) (err : Z) : list event :=
  trace (report_outcome pid oc (blank err)).

(** The status word the parent is handed for a child that ended as [oc]. *)
Definition exit_word_of (oc : outcome) : option Z :=
  match oc with
  | Exits status _ => Some (status_of_exit status)
  | _ => None
  end.

(** The branch the answer of [waitpid] selects, read off the oracle. *)
Definition oracle_outcome (o : Oracle) : WaitOutcome :=
  wait_outcome (wait_ret o) (wait_status o) (wait_errno o).

Definition select (sel : event -> bool) (t : list event) : list event :=
  List.filter sel t.

(** The text [main] passes to [parse_command] for the buffer [fgets] filled,
    and the vector it gets back. *)
Definition line_of (buf : string) : string := store_nul (strcspn buf newline) buf.
Definition line_args (buf : string) : list string := snd (parse_command (line_of buf)).

Definition is_builtin (arg0 : string) : bool :=
  (strcmp arg0 "exit" =? 0) || (strcmp arg0 "help" =? 0) || (strcmp arg0 "cd" =? 0).

(** The four signals the shell leaves to the foreground process group. *)
Definition delegated : list Z := [SIGQUIT; SIGTSTP; SIGTTIN; SIGTTOU].

Definition ignores_delegated (w : World) : Prop :=
  Forall (fun sig => disposition w sig = SIG_IGN) delegated.

(** The worlds in which the shell itself shows a prompt, [w1] being the
    world [init_shell] returned. *)
Inductive at_prompt (w1 : World) : World -> Prop :=
  | first_prompt : at_prompt w1 (banner w1)
  | next_prompt (i : input) (w w' : World) :
      at_prompt w1 w -> loop_body i w = Continue w' -> at_prompt w1 w'.

(** What happened to the child, as the kernel knows it when the shell
    waits, and the status word [waitpid] then delivers. *)
Inductive child_event : Type :=
  | ChildExit (code : Z)
  | ChildKilled (sig : Z) (core : bool)
  | ChildStopped (sig : Z)
  | WaitError (err : Z).

Definition well_formed (ev : child_event) : bool :=
  match ev with
  | ChildExit code => (0 <=? code) && (code <=? 255)
  | ChildKilled sig _ => (1 <=? sig) && (sig <=? 126)
  | ChildStopped sig => (1 <=? sig) && (sig <=? 255)
  | WaitError _ => true
  end.

Definition answers (o : Oracle) (pid : Z) (ev : child_event) : Prop :=
  match ev with
  | ChildExit code => wait_ret o = pid /\ wait_status o = status_of_exit code
  | ChildKilled sig core => wait_ret o = pid /\ wait_status o = status_of_kill sig core
  | ChildStopped sig => wait_ret o = pid /\ wait_status o = W_STOPCODE sig
  | WaitError err => wait_ret o = -1 /\ wait_errno o = err
  end.

(** The mapping of spec section 4.4, in the spec's words. *)
Definition spec_wait_outcome (ev : child_event) : WaitOutcome :=
  match ev with
  | ChildExit code => Exited code
  | ChildKilled sig _ => TerminatedBySignal sig
  | ChildStopped _ => StoppedBySignal
  | WaitError err => WaitFailed err
  end.

(** The disposition of [sig] once [init_shell] has returned. *)
Definition init_disposition (resumes : list Z) (w : World) (sig : Z)
  : option sighandler :=
  option_map (fun w' => disposition w' sig) (init_shell resumes w).

(** A shell whose standard input is a pipe, and one on a terminal. *)
Definition piped_world : World := mkWorld false 100 100 0 0 ∅ 0 0 0 [].
Definition tty_world : World := mkWorld true 100 100 100 7 ∅ 0 0 0 [].
Definition quiet_oracle : Oracle := mkOracle 200 0 200 0 200 0 0 0 0.

End Sigshell.

(** ** The rest of the shell and the vocabulary of its properties *)

Module Session.
Import CString Posix Kernel Sigshell.


(** *** Text *)

Definition is_delim (c : ascii) : bool := mem_char c delims.

Fixpoint delim_free (s : string) : bool :=
  match s with
  | EmptyString => true
  | String c s' => negb (is_delim c) && delim_free s'
  end.

Fixpoint all_delims (s : string) : bool :=
  match s with
  | EmptyString => true
  | String c s' => is_delim c && all_delims s'
  end.

(** A word as [strtok] hands it out: not empty, no blank in it. *)
Definition is_word (s : string) : bool :=
  match s with
  | EmptyString => false
  | String _ _ => delim_free s
  end.

Fixpoint newline_free (s : string) : bool :=
  match s with
  | EmptyString => true
  | String c s' => negb (mem_char c newline) && newline_free s'
  end.

(** The words of a command line written with one space between them. *)
Fixpoint join (words : list string) : string :=
  match words with
  | [] => EmptyString
  | t :: words' =>
      match words' with
      | [] => t
      | _ :: _ => t +:+ String " "%char (join words')
      end
  end.

(** The text without its blanks, and the words of a vector put end to end. *)
Fixpoint strip (s : string) : string :=
  match s with
  | EmptyString => EmptyString
  | String c s' => if is_delim c then strip s' else String c (strip s')
  end.

Fixpoint glue (words : list string) : string :=
  match words with
  | [] => EmptyString
  | t :: words' => t +:+ glue words'
  end.

(** *** Events *)

Definition is_chdir (e : event) : bool :=
  match e with Call_chdir _ => true | _ => false end.

Definition is_kill (e : event) : bool :=
  match e with Call_kill _ _ => true | _ => false end.

Definition is_enter (e : event) : bool :=
  match e with Enter_execute_command _ _ => true | _ => false end.

(** Calls that act on the terminal or on the process' place in job control. *)
Definition is_job_control (e : event) : bool :=
  match e with
  | Call_tcsetpgrp _ _ | Call_tcgetpgrp _ | Call_tcgetattr _
  | Call_setpgid _ _ | Call_kill _ _ | Call_signal _ _ | Call_sigaction _ _ => true
  | _ => false
  end.

(** Calls through which a process is created, replaced or collected. *)
Definition is_process_call (e : event) : bool :=
  match e with
  | Call_fork | Call_execvp _ _ | Call_waitpid _ _ => true
  | _ => false
  end.

(** The entry of the core agrees with the policy on its first argument. *)
Definition entry_follows_policy (e : event) : bool :=
  match e with
  | Enter_execute_command [] _ => false
  | Enter_execute_command (arg0 :: _) protect =>
      protect =? should_protect_sigint arg0
  | _ => true
  end.

(** Calls that read or change who owns the terminal. *)
Definition is_terminal_call (e : event) : bool :=
  match e with
  | Call_tcsetpgrp _ _ | Call_tcgetpgrp _ | Call_tcgetattr _ | Call_kill _ _ => true
  | _ => false
  end.

(** *** Sessions *)

(** The checks of the loop of [init_shell] that fail before one succeeds,
    [seen] being the foreground group found at each check. *)
Fixpoint failed_checks (pgrp : Z) (seen : list Z) : nat :=
  match seen with
  | [] => O
  | fg :: seen' => if fg =? pgrp then O else S (failed_checks pgrp seen')
  end.

(** What [init_shell] installs, on the dispositions [d]. *)
Definition shell_dispositions (d : gmap Z sighandler) : gmap Z sighandler :=
  <[SIGTTOU := SIG_IGN]> (<[SIGTTIN := SIG_IGN]> (<[SIGTSTP := SIG_IGN]>
    (<[SIGQUIT := SIG_IGN]> (<[SIGINT := Handler "sigint_handler"]> d)))).

(** The lines of a session are all served by the shell itself: no [fork]
    of theirs answers 0. *)
Definition in_shell (i : input) : bool :=
  match i with
  | ReadError => true
  | Line _ o => negb (fork_ret o =? 0)
  end.

(** The shell owns its terminal: it is the foreground group, [shell_pgid]
    names its group, and SIGINT goes to [sigint_handler]. *)
Definition owns_terminal (w : World) : Prop :=
  stdin_tty w = true /\ tty_fg w = shell_pgid w /\ shell_pgid w = self_pgrp w /\
  disposition w SIGINT = Handler "sigint_handler".

End Session.

(** * Properties *)

Import CString Posix Kernel Sigshell.

(** ** Strings *)

Section StringFacts.

Lemma code_inj (c d : ascii) : code c = code d -> c = d.
Proof.
  unfold code. intros H. apply N2Z.inj in H.
  rewrite <- (ascii_N_embedding c), <- (ascii_N_embedding d).
  now rewrite H.
Qed.

Lemma strcmp_refl (a : string) : strcmp a a = 0.
Proof.
  induction a as [|c a IH]; simpl; [reflexivity|].
  now rewrite Z.eqb_refl.
Qed.

(** On well-formed strings [strcmp] answers 0 for equal strings only. *)
Lemma strcmp_eq (a b : string) :
  nul_free a = true -> nul_free b = true -> strcmp a b = 0 -> a = b.
Proof.
  revert b. induction a as [|c a IH]; intros [|d b]; simpl; auto.
  - rewrite andb_true_iff, negb_true_iff, Z.eqb_neq. lia.
  - rewrite andb_true_iff, negb_true_iff, Z.eqb_neq. lia.
  - rewrite !andb_true_iff. intros [_ Ha] [_ Hb].
    destruct (code c =? code d) eqn:E.
    + apply Z.eqb_eq, code_inj in E. intros H. f_equal; auto.
    + apply Z.eqb_neq in E. lia.
Qed.

Lemma strcmp_eqb_iff (a b : string) :
  nul_free a = true -> nul_free b = true ->
  (strcmp a b =? 0) = true <-> a = b.
Proof.
  intros Ha Hb. rewrite Z.eqb_eq. split.
  - now apply strcmp_eq.
  - intros ->. apply strcmp_refl.
Qed.

End StringFacts.

(** ** Signal policy *)

Section SignalPolicy.

Example protect_sleep : should_protect_sigint "sleep" = 1.
Proof. reflexivity. Qed.

Example protect_is_case_sensitive : should_protect_sigint "Sleep" = 0.
Proof. reflexivity. Qed.

Example protect_no_prefix_match :
  should_protect_sigint "sleepy" = 0 /\ should_protect_sigint "slee" = 0.
Proof. split; reflexivity. Qed.

(** C5.  [should_protect_sigint] answers 1 exactly for the two names of its
    table, compared byte for byte, and 0 for every other name; it is a
    function of the name alone. *)
Theorem should_protect_sigint_exact (cmd : string) :
  nul_free cmd = true ->
  (should_protect_sigint cmd = 1 <-> cmd = "sleep" \/ cmd = "critical") /\
  (should_protect_sigint cmd = 0 <-> ~ (cmd = "sleep" \/ cmd = "critical")).
Proof.
  intros Hc. unfold should_protect_sigint, protected. simpl.
  pose proof (strcmp_eqb_iff cmd "sleep" Hc eq_refl) as Hs.
  pose proof (strcmp_eqb_iff cmd "critical" Hc eq_refl) as Hk.
  destruct (strcmp cmd "sleep" =? 0); destruct (strcmp cmd "critical" =? 0);
    intuition congruence.
Qed.

Lemma should_protect_sigint_exact_witness :
  nul_free "critical" = true /\
  (should_protect_sigint "critical" = 1 <->
     "critical" = "sleep" \/ "critical" = "critical").
Proof.
  split; [reflexivity|].
  apply (should_protect_sigint_exact "critical"). reflexivity.
Defined.

End SignalPolicy.

(** ** Status words *)

Section StatusWords.

(** A check that succeeds on every number below [n] holds on that range. *)
Lemma checked_below (P : Z -> bool) (n : nat) :
  forallb P (map Z.of_nat (seq 0 n)) = true ->
  forall x, 0 <= x < Z.of_nat n -> P x = true.
Proof.
  intros H x Hx. rewrite forallb_forall in H. apply H.
  apply in_map_iff. exists (Z.to_nat x). split; [lia|].
  apply in_seq. lia.
Qed.

Lemma exit_word (code : Z) :
  0 <= code <= 255 ->
  WIFSTOPPED (status_of_exit code) = false /\
  WIFEXITED (status_of_exit code) = true /\
  WEXITSTATUS (status_of_exit code) = code.
Proof.
  intros H.
  assert (K : (negb (WIFSTOPPED (status_of_exit code)) &&
               WIFEXITED (status_of_exit code) &&
               (WEXITSTATUS (status_of_exit code) =? code)) = true).
  { apply (checked_below
             (fun c => negb (WIFSTOPPED (status_of_exit c)) &&
                       WIFEXITED (status_of_exit c) &&
                       (WEXITSTATUS (status_of_exit c) =? c)) 256);
      [vm_compute; reflexivity | lia]. }
  rewrite !andb_true_iff, negb_true_iff, Z.eqb_eq in K. tauto.
Qed.

Lemma kill_word (sig : Z) (core : bool) :
  1 <= sig <= 126 ->
  WIFSTOPPED (status_of_kill sig core) = false /\
  WIFEXITED (status_of_kill sig core) = false /\
  WIFSIGNALED (status_of_kill sig core) = true /\
  WTERMSIG (status_of_kill sig core) = sig.
Proof.
  intros H.
  pose (check := fun (c : bool) (s : Z) =>
          (s =? 0) ||
          negb (WIFSTOPPED (status_of_kill s c)) &&
          negb (WIFEXITED (status_of_kill s c)) &&
          WIFSIGNALED (status_of_kill s c) &&
          (WTERMSIG (status_of_kill s c) =? s)).
  assert (K : check core sig = true).
  { destruct core; apply (checked_below (check _) 127);
      solve [vm_compute; reflexivity | lia]. }
  unfold check in K. replace (sig =? 0) with false in K by lia.
  rewrite orb_false_l, !andb_true_iff, !negb_true_iff, Z.eqb_eq in K. tauto.
Qed.

Lemma stop_word (sig : Z) :
  1 <= sig <= 255 -> WIFSTOPPED (W_STOPCODE sig) = true.
Proof.
  intros H.
  apply (checked_below (fun s => WIFSTOPPED (W_STOPCODE s)) 256);
    [vm_compute; reflexivity | lia].
Qed.

End StatusWords.

(** ** Traces *)

Section Traces.

Lemma select_app (sel : event -> bool) (s t : list event) :
  select sel (s ++ t) = select sel s ++ select sel t.
Proof. apply List.filter_app. Qed.

(** Events of one kind hold none of another kind. *)
Lemma none_selected (keep sel : event -> bool) (evs : list event) :
  (forall e, keep e = true -> sel e = false) ->
  forallb keep evs = true -> select sel evs = [].
Proof.
  intros Hsel. induction evs as [|e evs IH]; cbn; [reflexivity|].
  rewrite andb_true_iff. intros [He Hevs].
  rewrite (Hsel e He). now apply IH.
Qed.

Lemma forallb_weaken (keep keep' : event -> bool) (evs : list event) :
  (forall e, keep e = true -> keep' e = true) ->
  forallb keep evs = true -> forallb keep' evs = true.
Proof.
  intros H. rewrite !forallb_forall. auto.
Qed.

Lemma tty_calls_plain (tty : bool) (pgid : Z) :
  forallb is_plain (tty_calls tty pgid) = true.
Proof. now destruct tty. Qed.

Lemma reports_are_plain (pid : Z) (oc : WaitOutcome) (err : Z) :
  forallb is_plain (reports_of pid oc err) = true.
Proof.
  unfold reports_of, report_outcome, blank.
  destruct oc as [|code|sig|e|]; try destruct (code =? 0); reflexivity.
Qed.

End Traces.

(** Split a check over a trace written with [++] into its pieces. *)
Ltac check_events :=
  repeat rewrite forallb_app;
  repeat (apply andb_true_intro; split);
  try first
    [ reflexivity
    | apply tty_calls_plain
    | apply reports_are_plain
    | eapply forallb_weaken; [|eassumption]; intros [] ?;
      (reflexivity || discriminate)
    | eapply forallb_weaken;
      [|first [apply tty_calls_plain | apply reports_are_plain]];
      intros [] ?; (reflexivity || discriminate) ].

(** Unfold the system calls down to the fields of the world. *)
Ltac kernel :=
  unfold isatty, getpid, getpgrp, fork, setpgid, sigaction, signal, tcgetpgrp,
    tcsetpgrp, tcgetattr, kill, waitpid, execvp, chdir, printf, fprintf_stderr,
    perror in *;
  cbn [emit set_errno set_tty_fg set_self set_sigdisp set_shell_pgid
       set_shell_tmodes stdin_tty self_pid self_pgrp tty_fg tty_attrs sigdisp
       shell_pgid shell_tmodes errno trace fst snd] in *.

(** Read every trace as the old one followed by the new events. *)
Ltac flatten_trace :=
  repeat rewrite <- app_assoc; cbn [app].

(** ** Waiting for the child *)

Section WaitClassifier.

Lemma wait_for_trace (pid : Z) (o : Oracle) (w : World) :
  trace (snd (wait_for pid o w)) = trace w ++ [Call_waitpid pid WUNTRACED] /\
  same_state w (snd (wait_for pid o w)).
Proof.
  unfold wait_for, same_state. kernel.
  destruct (wait_ret o =? -1); cbn; tauto.
Qed.

Lemma wait_for_answer (pid : Z) (o : Oracle) (w : World) (ev : child_event) :
  0 < pid -> well_formed ev = true -> answers o pid ev ->
  fst (wait_for pid o w) = spec_wait_outcome ev.
Proof.
  intros Hpid Hev Ho. unfold wait_for. kernel.
  destruct ev as [code|sig core|sig|err]; cbn in Hev, Ho |- *;
    destruct Ho as [Hr Hs].
  - replace (wait_ret o =? -1) with false by lia. cbn.
    unfold wait_outcome. rewrite Hr, Hs.
    replace (0 <? pid) with true by lia.
    destruct (exit_word code) as (-> & -> & ->); [lia | reflexivity].
  - replace (wait_ret o =? -1) with false by lia. cbn.
    unfold wait_outcome. rewrite Hr, Hs.
    replace (0 <? pid) with true by lia.
    destruct (kill_word sig core) as (-> & -> & -> & ->); [lia | reflexivity].
  - replace (wait_ret o =? -1) with false by lia. cbn.
    unfold wait_outcome. rewrite Hr, Hs.
    replace (0 <? pid) with true by lia.
    rewrite stop_word by lia. reflexivity.
  - rewrite Hr. cbn. now rewrite Hs.
Qed.

End WaitClassifier.

(** ** The parent side of [execute_command] *)

Section Parent.

Lemma wait_for_fst (pid : Z) (o : Oracle) (w : World) :
  fst (wait_for pid o w) = oracle_outcome o.
Proof.
  unfold wait_for, oracle_outcome, wait_outcome. kernel.
  destruct (wait_ret o =? -1) eqn:E; cbn.
  - apply Z.eqb_eq in E. now rewrite E.
  - rewrite E. reflexivity.
Qed.

Lemma reports_of_errno (pid : Z) (oc : WaitOutcome) (e1 e2 : Z) :
  (forall err, oc <> WaitFailed err) -> reports_of pid oc e1 = reports_of pid oc e2.
Proof.
  intros H. destruct oc as [|code|sig|err|]; try reflexivity.
  - unfold reports_of, report_outcome. now destruct (code =? 0).
  - now destruct (H err).
Qed.

(** When [waitpid] fails, [errno] is the error it set, and only then does
    the report read [errno]. *)
Lemma wait_for_errno (pid : Z) (o : Oracle) (w : World) :
  reports_of pid (fst (wait_for pid o w)) (errno (snd (wait_for pid o w))) =
  reports_of pid (oracle_outcome o) (wait_errno o).
Proof.
  rewrite wait_for_fst.
  unfold wait_for, oracle_outcome, wait_outcome. kernel.
  destruct (wait_ret o =? -1) eqn:E; cbn [fst snd errno]; [reflexivity|].
  apply reports_of_errno. intros err.
  destruct (0 <? wait_ret o); [|discriminate].
  destruct (WIFSTOPPED _); [discriminate|].
  destruct (WIFEXITED _); [discriminate|].
  destruct (WIFSIGNALED _); discriminate.
Qed.

Lemma same_state_refl (w : World) : same_state w w.
Proof. unfold same_state. tauto. Qed.

Lemma same_state_trans (a b c : World) :
  same_state a b -> same_state b c -> same_state a c.
Proof. unfold same_state. intuition congruence. Qed.

(** A guarded [tcsetpgrp]: the calls made and the new owner of the terminal. *)
Lemma grant_foreground_runs (pgid : Z) (w : World) :
  trace (grant_foreground pgid w) = trace w ++ tty_calls (stdin_tty w) pgid /\
  same_state (set_tty_fg (if stdin_tty w then pgid else tty_fg w) w)
             (grant_foreground pgid w).
Proof.
  unfold grant_foreground, same_state, tty_calls. kernel.
  change (STDIN_FILENO =? STDIN_FILENO) with true. cbn [andb].
  destruct (stdin_tty w) eqn:E; kernel; rewrite ?E; kernel;
    flatten_trace; tauto.
Qed.

Lemma reclaim_foreground_runs (w : World) :
  trace (reclaim_foreground w) = trace w ++ tty_calls (stdin_tty w) (shell_pgid w) /\
  same_state (set_tty_fg (if stdin_tty w then shell_pgid w else tty_fg w) w)
             (reclaim_foreground w).
Proof.
  unfold reclaim_foreground, same_state, tty_calls. kernel.
  change (STDIN_FILENO =? STDIN_FILENO) with true. cbn [andb].
  destruct (stdin_tty w) eqn:E; kernel; rewrite ?E; kernel;
    flatten_trace; tauto.
Qed.

Lemma report_outcome_runs (pid : Z) (oc : WaitOutcome) (w : World) :
  same_state w (report_outcome pid oc w) /\
  trace (report_outcome pid oc w) = trace w ++ reports_of pid oc (errno w).
Proof.
  unfold same_state, reports_of, report_outcome, blank.
  destruct oc as [|code|sig|err|]; try destruct (code =? 0);
    cbn [negb]; kernel; flatten_trace; rewrite ?app_nil_r; tauto.
Qed.

Lemma reports_are_output (pid : Z) (oc : WaitOutcome) (err : Z) :
  forallb is_output (reports_of pid oc err) = true.
Proof.
  unfold reports_of, report_outcome, blank.
  destruct oc as [|code|sig|e|]; try destruct (code =? 0); reflexivity.
Qed.

Lemma protect_note_runs (pid protect : Z) (fmt : string) (w : World) :
  let w' := if negb (protect =? 0) then printf fmt [pid] w else w in
  same_state w w' /\
  exists notes, forallb is_output notes = true /\ trace w' = trace w ++ notes.
Proof.
  cbv zeta. destruct (protect =? 0); cbn [negb]; split;
    try apply same_state_refl.
  - exists []. now rewrite app_nil_r.
  - unfold same_state. kernel. tauto.
  - eexists. split; [|reflexivity]. reflexivity.
Qed.

(** Everything the parent does between [fork] and its return: who owns
    the terminal afterwards, and the calls in order. *)
Lemma parent_branch_runs (pid protect : Z) (o : Oracle) (w : World) :
  let w' := parent_branch pid protect o w in
  same_state (set_tty_fg (if stdin_tty w then shell_pgid w else tty_fg w) w) w' /\
  exists notes,
    forallb is_output notes = true /\
    trace w' =
      trace w ++ notes ++ tty_calls (stdin_tty w) pid ++
      [Call_waitpid pid WUNTRACED] ++
      reports_of pid (oracle_outcome o) (wait_errno o) ++
      tty_calls (stdin_tty w) (shell_pgid w).
Proof.
  cbv zeta. unfold parent_branch.
  match goal with
  | |- context [grant_foreground pid ?w0] => set (wn := w0)
  end.
  destruct (protect_note_runs pid protect
    "[Shell] Process %d is protected from SIGINT (Ctrl+C won't work)\n" w)
    as (Sn & notes & Hn & Tn).
  fold wn in Sn, Tn.
  destruct (grant_foreground_runs pid wn) as (Tg & Sg).
  set (wg := grant_foreground pid wn) in *.
  destruct (wait_for_trace pid o wg) as (Tw & Sw).
  pose proof (wait_for_fst pid o wg) as Hoc.
  pose proof (wait_for_errno pid o wg) as Herr.
  destruct (wait_for pid o wg) as [oc ww]. cbn [fst snd] in Tw, Sw, Hoc, Herr.
  subst oc.
  destruct (report_outcome_runs pid (oracle_outcome o) ww) as (Sr & Tr).
  rewrite Herr in Tr.
  set (wr := report_outcome pid (oracle_outcome o) ww) in *.
  destruct (reclaim_foreground_runs wr) as (Tc & Sc).
  set (wc := reclaim_foreground wr) in *.
  assert (Etty : stdin_tty wr = stdin_tty w /\ shell_pgid wr = shell_pgid w).
  { unfold same_state in *. kernel. intuition congruence. }
  destruct Etty as [Etty Epg]. rewrite Etty, Epg in Tc, Sc.
  assert (Etty' : stdin_tty wn = stdin_tty w) by (unfold same_state in *; tauto).
  rewrite Etty' in Tg, Sg.
  split.
  - unfold same_state in *. kernel.
    destruct (stdin_tty w); intuition congruence.
  - exists notes. split; [assumption|].
    rewrite Tc, Tr, Tw, Tg, Tn. now flatten_trace.
Qed.

End Parent.

(** ** [execute_command]: the three ways [fork] can answer *)

Section Fork.

Variables (args : list string) (protect : Z) (o : Oracle) (w : World).

(** [fork] fails: the error is reported and nothing else is done. *)
Lemma execute_command_fork_failed :
  fork_ret o < 0 ->
  exists w',
    execute_command args protect o w = Returns w' /\
    same_state w w' /\
    trace w' =
      trace w ++ [Enter_execute_command args protect;
                  Call_isatty STDIN_FILENO; Call_fork;
                  Out_perror "fork failed" (fork_errno o)].
Proof.
  intros H. unfold execute_command, same_state. kernel.
  change (STDIN_FILENO =? STDIN_FILENO) with true. cbn [andb].
  replace (fork_ret o <? 0) with true by lia.
  destruct (stdin_tty w) eqn:Etty; kernel; replace (fork_ret o <? 0) with true by lia;
    eexists; (split; [reflexivity|]); kernel; flatten_trace; tauto.
Qed.

(** In the parent: the rest is [parent_branch]. *)
Lemma execute_command_in_parent :
  0 < fork_ret o ->
  exists w0,
    execute_command args protect o w =
      Returns (parent_branch (fork_ret o) protect o w0) /\
    same_state w w0 /\
    trace w0 =
      trace w ++ [Enter_execute_command args protect;
                  Call_isatty STDIN_FILENO; Call_fork].
Proof.
  intros H. unfold execute_command, same_state. kernel.
  change (STDIN_FILENO =? STDIN_FILENO) with true. cbn [andb].
  replace (fork_ret o <? 0) with false by lia.
  replace (fork_ret o =? 0) with false by lia.
  destruct (stdin_tty w) eqn:Etty; kernel;
    replace (fork_ret o <? 0) with false by lia;
    replace (fork_ret o =? 0) with false by lia;
    eexists; (split; [reflexivity|]); kernel; flatten_trace; tauto.
Qed.

(** In the child: the rest is [child_branch], run by a process with a pid
    of its own and the dispositions and terminal of the shell. *)
Lemma execute_command_in_child :
  fork_ret o = 0 ->
  exists w0,
    execute_command args protect o w = child_branch args protect o w0 /\
    same_state (set_self (child_pid o) (self_pgrp w) w) w0 /\
    trace w0 =
      trace w ++ [Enter_execute_command args protect;
                  Call_isatty STDIN_FILENO; Call_fork].
Proof.
  intros H. unfold execute_command, same_state. kernel.
  change (STDIN_FILENO =? STDIN_FILENO) with true. cbn [andb].
  rewrite H. cbn [Z.ltb Z.eqb Z.compare].
  destruct (stdin_tty w) eqn:Etty; kernel; rewrite ?H; cbn [Z.ltb Z.eqb Z.compare];
    eexists; (split; [reflexivity|]); kernel; flatten_trace; tauto.
Qed.

End Fork.

(** ** Terminal ownership *)

Section Terminal.

(** C1.  Whatever [waitpid] answered (exit, signal, stop, or failure), a
    shell on a terminal ends [execute_command] with the terminal's
    foreground group set to [shell_pgid]: the guarded [tcsetpgrp] is the last
    thing it does, after the wait, before it returns to the prompt loop. *)
Theorem terminal_reclaimed_after_wait
  (args : list string) (protect : Z) (o : Oracle) (w : World) :
  0 < fork_ret o -> stdin_tty w = true ->
  exists w' before,
    execute_command args protect o w = Returns w' /\
    tty_fg w' = shell_pgid w /\ shell_pgid w' = shell_pgid w /\
    In (Call_waitpid (fork_ret o) WUNTRACED) before /\
    trace w' =
      trace w ++ before ++
      reports_of (fork_ret o) (oracle_outcome o) (wait_errno o) ++
      [Call_isatty STDIN_FILENO;
       Call_tcsetpgrp STDIN_FILENO (shell_pgid w)].
Proof.
  intros Hpid Htty.
  destruct (execute_command_in_parent args protect o w Hpid) as (w0 & E & S0 & T0).
  destruct (parent_branch_runs (fork_ret o) protect o w0) as (S1 & notes & Hn & T1).
  assert (Htty0 : stdin_tty w0 = true) by (unfold same_state in S0; intuition congruence).
  assert (Hpg0 : shell_pgid w0 = shell_pgid w) by (unfold same_state in S0; tauto).
  rewrite Htty0, Hpg0 in *. unfold tty_calls in T1.
  exists (parent_branch (fork_ret o) protect o w0).
  exists ([Enter_execute_command args protect; Call_isatty STDIN_FILENO; Call_fork]
          ++ notes ++ [Call_isatty STDIN_FILENO;
                       Call_tcsetpgrp STDIN_FILENO (fork_ret o)]
          ++ [Call_waitpid (fork_ret o) WUNTRACED]).
  split; [assumption|].
  unfold same_state in S1. kernel.
  split; [tauto|]. split; [intuition congruence|].
  split. { rewrite !in_app_iff. right. right. right. now left. }
  rewrite T1, T0. now flatten_trace.
Qed.

Lemma terminal_reclaimed_after_wait_witness :
  0 < fork_ret quiet_oracle /\ stdin_tty tty_world = true /\
  exists w' before,
    execute_command ["ls"] 0 quiet_oracle tty_world = Returns w' /\
    tty_fg w' = shell_pgid tty_world /\ shell_pgid w' = shell_pgid tty_world /\
    In (Call_waitpid (fork_ret quiet_oracle) WUNTRACED) before /\
    trace w' =
      trace tty_world ++ before ++
      reports_of (fork_ret quiet_oracle) (oracle_outcome quiet_oracle)
        (wait_errno quiet_oracle) ++
      [Call_isatty STDIN_FILENO;
       Call_tcsetpgrp STDIN_FILENO (shell_pgid tty_world)].
Proof.
  split; [reflexivity|]. split; [reflexivity|].
  apply (terminal_reclaimed_after_wait ["ls"] 0 quiet_oracle tty_world);
    reflexivity.
Defined.

End Terminal.

Section TerminalIdempotence.

(** C9.  When the terminal already belongs to the shell's group,
    [reclaim_foreground] changes nothing in the state (terminal owner
    included), makes no call that fails and prints no error; and a second
    call after a first never changes the owner again. *)
Theorem reclaim_foreground_idempotent (w : World) :
  tty_fg w = shell_pgid w ->
  same_state w (reclaim_foreground w) /\
  tty_fg (reclaim_foreground w) = tty_fg w /\
  trace (reclaim_foreground w) =
    trace w ++ tty_calls (stdin_tty w) (shell_pgid w) /\
  (stdin_tty w = true ->
     fst (tcsetpgrp STDIN_FILENO (shell_pgid w) (snd (isatty STDIN_FILENO w))) = 0 /\
     errno (reclaim_foreground w) = errno w) /\
  tty_fg (reclaim_foreground (reclaim_foreground w)) =
    tty_fg (reclaim_foreground w).
Proof.
  intros H.
  destruct (reclaim_foreground_runs w) as (T & S).
  destruct (reclaim_foreground_runs (reclaim_foreground w)) as (_ & S2).
  assert (S' : same_state w (reclaim_foreground w)).
  { unfold same_state in *. kernel. destruct (stdin_tty w); intuition congruence. }
  split; [assumption|]. split; [unfold same_state in S'; tauto|].
  split; [assumption|]. split.
  - intros Htty. unfold reclaim_foreground. kernel.
    change (STDIN_FILENO =? STDIN_FILENO) with true. cbn [andb].
    rewrite Htty. kernel. rewrite ?Htty. kernel. split; reflexivity.
  - unfold same_state in *. kernel.
    destruct (stdin_tty (reclaim_foreground w)); intuition congruence.
Qed.

Lemma reclaim_foreground_idempotent_witness :
  tty_fg tty_world = shell_pgid (set_shell_pgid 100 tty_world) /\
  tty_fg (reclaim_foreground (set_shell_pgid 100 tty_world)) = 100.
Proof.
  split; [reflexivity|].
  destruct (reclaim_foreground_idempotent (set_shell_pgid 100 tty_world))
    as (_ & H & _); [reflexivity|].
  exact H.
Defined.

End TerminalIdempotence.

(** ** The wait classifier *)

Section Classifier.

Example report_of_failure (pid err : Z) :
  reports_of pid (WaitFailed err) err = [Out_perror "waitpid failed" err].
Proof. reflexivity. Qed.

Example report_of_clean_exit (pid err : Z) :
  reports_of pid (Exited 0) err = [].
Proof. reflexivity. Qed.

Example report_of_exit_3 :
  reports_of 200 (Exited 3) 0 =
    [Out_printf "[Shell] Process exited with status %d\n" [3]].
Proof. reflexivity. Qed.

(** C2.  The parent waits once, with [WUNTRACED], on the pid [fork] gave
    it, and the branch it takes is the one the spec names for what happened
    to the child: [Exited code] for an exit with [code] in 0..255,
    [TerminatedBySignal sig] for a fatal signal, [StoppedBySignal] for a stop,
    [WaitFailed err] when [waitpid] itself fails; what it then prints is the
    report of that branch, for a failure the [perror] line. *)
Theorem wait_classifier_mapping
  (args : list string) (protect pid : Z) (o : Oracle) (w : World)
  (ev : child_event) :
  0 < pid -> fork_ret o = pid -> well_formed ev = true -> answers o pid ev ->
  (forall w0, fst (wait_for pid o w0) = spec_wait_outcome ev) /\
  (forall err, ev = WaitError err ->
     reports_of pid (spec_wait_outcome ev) (wait_errno o) =
       [Out_perror "waitpid failed" err]) /\
  exists w' before after,
    execute_command args protect o w = Returns w' /\
    select is_waitpid (trace w') =
      select is_waitpid (trace w) ++ [Call_waitpid pid WUNTRACED] /\
    trace w' =
      trace w ++ before ++ [Call_waitpid pid WUNTRACED] ++
      reports_of pid (spec_wait_outcome ev) (wait_errno o) ++ after.
Proof.
  intros Hpid Hfork Hev Ho.
  assert (Hoc : oracle_outcome o = spec_wait_outcome ev).
  { rewrite <- (wait_for_fst pid o w). now apply wait_for_answer. }
  split; [intros w0; now apply wait_for_answer|].
  split.
  { intros err ->. cbn in Ho |- *. destruct Ho as [_ ->]. reflexivity. }
  assert (Hpid' : 0 < fork_ret o) by lia.
  destruct (execute_command_in_parent args protect o w Hpid') as (w0 & E & S0 & T0).
  destruct (parent_branch_runs (fork_ret o) protect o w0) as (S1 & notes & Hn & T1).
  rewrite Hfork, Hoc in *.
  exists (parent_branch pid protect o w0).
  exists ([Enter_execute_command args protect; Call_isatty STDIN_FILENO; Call_fork]
          ++ notes ++ tty_calls (stdin_tty w0) pid).
  exists (tty_calls (stdin_tty w0) (shell_pgid w0)).
  split; [assumption|]. split.
  - rewrite T1, T0. rewrite !select_app.
    rewrite (none_selected is_output is_waitpid notes) by
      (assumption || (intros [] ?; (reflexivity || discriminate))).
    rewrite (none_selected is_output is_waitpid (reports_of _ _ _)) by
      (apply reports_are_output || (intros [] ?; (reflexivity || discriminate))).
    unfold tty_calls. destruct (stdin_tty w0); cbn; now rewrite !app_nil_r.
  - rewrite T1, T0. now flatten_trace.
Qed.

Lemma wait_classifier_mapping_witness :
  fst (wait_for 200 (mkOracle 200 0 200 0 200 (status_of_exit 7) 0 0 0) tty_world)
    = Exited 7.
Proof.
  destruct (wait_classifier_mapping ["ls"] 0 200
              (mkOracle 200 0 200 0 200 (status_of_exit 7) 0 0 0)
              tty_world (ChildExit 7)) as (H & _).
  - reflexivity.
  - reflexivity.
  - reflexivity.
  - split; reflexivity.
  - exact (H tty_world).
Defined.

End Classifier.

(** ** The child side of [execute_command] *)

Section Child.

Lemma setpgid_self (w : World) :
  setpgid 0 0 w =
    (0, set_self (self_pid w) (self_pid w) (emit (Call_setpgid 0 0) w)).
Proof. reflexivity. Qed.

Lemma sigaction_ok (sig : Z) (h : sighandler) (w : World) :
  (sig <? 1) || (NSIG <=? sig) || (sig =? SIGKILL) || (sig =? SIGSTOP) = false ->
  sigaction sig h w =
    (0, set_sigdisp (<[sig := h]> (sigdisp w)) (emit (Call_sigaction sig h) w)).
Proof. intros H. unfold sigaction. now rewrite H. Qed.

(** The child in full: the dispositions it ends with, the calls in order,
    and how it ends. *)
Lemma child_branch_runs (args : list string) (protect : Z) (o : Oracle) (w : World) :
  let h := if negb (protect =? 0) then SIG_IGN else SIG_DFL in
  let w' := world_of (child_branch args protect o w) in
  sigdisp w' = <[SIGINT := h]> (<[SIGTSTP := SIG_DFL]> (sigdisp w)) /\
  self_pid w' = self_pid w /\ self_pgrp w' = self_pid w /\
  tty_fg w' = tty_fg w /\ shell_pgid w' = shell_pgid w /\
  child_branch args protect o w =
    match args with
    | [] => Fault w'
    | file :: _ =>
        if execvp_errno o =? 0 then Execs file args w' else Exits 1 w'
    end /\
  exists notes,
    forallb is_passive notes = true /\
    trace w' =
      trace w ++
      [Call_setpgid 0 0; Call_sigaction SIGTSTP SIG_DFL; Call_sigaction SIGINT h] ++
      notes ++
      match args with
      | [] => []
      | file :: _ =>
          Call_execvp file args ::
          (if execvp_errno o =? 0 then []
           else [Out_perror "Command execution failed" (execvp_errno o)])
      end.
Proof.
  cbv zeta. unfold child_branch.
  rewrite setpgid_self. rewrite sigaction_ok by reflexivity.
  destruct (protect =? 0); cbn [negb];
    rewrite sigaction_ok by reflexivity; cbn [snd];
    destruct args as [|file rest]; kernel;
    try destruct (execvp_errno o =? 0); cbn [Z.ltb Z.compare world_of];
    kernel; flatten_trace;
    (repeat match goal with |- _ /\ _ => split end); try reflexivity;
    solve [ exists []; split; reflexivity
          | eexists [_; _]; split; [|reflexivity]; reflexivity ].
Qed.

End Child.

(** ** Signal dispositions of the child *)

Section ChildSignals.

Variables (args : list string) (o : Oracle) (w : World).

Local Abbreviation child := (child_world args o w).

Lemma child_dispositions (protect : Z) :
  fork_ret o = 0 ->
  sigdisp (child protect) =
    <[SIGINT := if negb (protect =? 0) then SIG_IGN else SIG_DFL]>
      (<[SIGTSTP := SIG_DFL]> (sigdisp w)).
Proof.
  intros H. unfold child_world.
  destruct (execute_command_in_child args protect o w H) as (w0 & -> & S0 & _).
  destruct (child_branch_runs args protect o w0) as (D & _).
  rewrite D. unfold same_state in S0. kernel.
  destruct S0 as (_ & _ & _ & _ & _ & -> & _). reflexivity.
Qed.

(** C3.  In the child the disposition of SIGINT is "ignore" exactly when
    [protect_sigint] is non-zero and the default action exactly when it is
    zero, and it is what the executed program starts with; the disposition
    of every other signal is the same whatever the flag is. *)
Theorem child_sigint_follows_protect (protect : Z) :
  fork_ret o = 0 ->
  (disposition (child protect) SIGINT = SIG_IGN <-> protect <> 0) /\
  (disposition (child protect) SIGINT = SIG_DFL <-> protect = 0) /\
  disposition_after_exec (child protect) SIGINT =
    disposition (child protect) SIGINT /\
  (forall sig protect',
     sig <> SIGINT ->
     disposition (child protect') sig = disposition (child protect) sig).
Proof.
  intros H. unfold disposition_after_exec, disposition.
  split; [|split; [|split]].
  - rewrite (child_dispositions protect H), lookup_insert_eq. cbn.
    destruct (Z.eqb_spec protect 0); cbn; split; congruence.
  - rewrite (child_dispositions protect H), lookup_insert_eq. cbn.
    destruct (Z.eqb_spec protect 0); cbn; split; congruence.
  - rewrite (child_dispositions protect H), lookup_insert_eq. cbn.
    now destruct (protect =? 0).
  - intros sig protect' Hsig.
    rewrite (child_dispositions protect H), (child_dispositions protect' H).
    assert (Hne : SIGINT <> sig) by congruence.
    now rewrite !(lookup_insert_ne _ SIGINT sig) by exact Hne.
Qed.

(** C4.  In the child the disposition of SIGTSTP is the default action
    whatever [protect_sigint] is: it is installed before [execvp] is called
    and nothing installs another one afterwards. *)
Theorem child_sigtstp_default (protect : Z) :
  fork_ret o = 0 ->
  disposition (child protect) SIGTSTP = SIG_DFL /\
  disposition_after_exec (child protect) SIGTSTP = SIG_DFL /\
  (forall protect', disposition (child protect') SIGTSTP =
                    disposition (child protect) SIGTSTP) /\
  (forall file rest,
     args = file :: rest ->
     exists before between after,
       trace (child protect) =
         trace w ++ before ++ [Call_sigaction SIGTSTP SIG_DFL] ++
         between ++ [Call_execvp file args] ++ after /\
       select (installs SIGTSTP) (between ++ after) = []).
Proof.
  intros H.
  assert (D : forall p, disposition (child p) SIGTSTP = SIG_DFL).
  { intros p. unfold disposition. rewrite (child_dispositions p H).
    rewrite lookup_insert_ne by discriminate. now rewrite lookup_insert_eq. }
  split; [apply D|]. split.
  { unfold disposition_after_exec. now rewrite D. }
  split. { intros p. now rewrite !D. }
  intros file rest ->. unfold child_world.
  destruct (execute_command_in_child (file :: rest) protect o w H)
    as (w0 & -> & _ & T0).
  destruct (child_branch_runs (file :: rest) protect o w0)
    as (_ & _ & _ & _ & _ & _ & notes & Hn & T).
  exists [Enter_execute_command (file :: rest) protect;
          Call_isatty STDIN_FILENO; Call_fork; Call_setpgid 0 0].
  exists (Call_sigaction SIGINT (if negb (protect =? 0) then SIG_IGN else SIG_DFL)
          :: notes).
  exists (if execvp_errno o =? 0 then []
          else [Out_perror "Command execution failed" (execvp_errno o)]).
  split.
  - rewrite T, T0. now flatten_trace.
  - rewrite select_app.
    change (Call_sigaction SIGINT ?h :: notes)
      with ([Call_sigaction SIGINT h] ++ notes).
    rewrite select_app.
    rewrite (none_selected is_passive (installs SIGTSTP) notes) by
      (assumption || (intros [] ?; (reflexivity || discriminate))).
    now destruct (execvp_errno o =? 0).
Qed.

End ChildSignals.

Lemma child_sigint_follows_protect_witness :
  fork_ret (mkOracle 0 0 201 0 0 0 0 0 0) = 0 /\
  disposition
    (child_world ["sleep"; "5"] (mkOracle 0 0 201 0 0 0 0 0 0) tty_world 1)
    SIGINT = SIG_IGN.
Proof.
  split; [reflexivity|].
  destruct (child_sigint_follows_protect ["sleep"; "5"]
              (mkOracle 0 0 201 0 0 0 0 0 0) tty_world 1) as ((_ & H) & _);
    [reflexivity | apply H; discriminate].
Defined.

Lemma child_sigtstp_default_witness :
  fork_ret (mkOracle 0 0 201 0 0 0 0 0 0) = 0 /\
  disposition
    (child_world ["sleep"; "5"] (mkOracle 0 0 201 0 0 0 0 0 0)
       (set_sigdisp (<[SIGTSTP := SIG_IGN]> ∅) tty_world) 1)
    SIGTSTP = SIG_DFL.
Proof.
  split; [reflexivity|].
  destruct (child_sigtstp_default ["sleep"; "5"]
              (mkOracle 0 0 201 0 0 0 0 0 0)
              (set_sigdisp (<[SIGTSTP := SIG_IGN]> ∅) tty_world) 1) as (H & _);
    [reflexivity | exact H].
Defined.

(** ** A program that cannot be executed *)

Section ExecFailure.

(** C6.  When [execvp] fails the child reports it with [perror] and ends
    at once with [exit(1)]; a parent that waits for that child is handed the
    status word of that exit and takes the branch [Exited 1], printing the
    exit status like for any other non-zero exit. *)
Theorem exec_failure_is_exit_1
  (file : string) (rest : list string) (protect pid : Z)
  (oc op : Oracle) (wc wp : World) :
  fork_ret oc = 0 -> execvp_errno oc <> 0 ->
  0 < pid -> wait_ret op = pid ->
  exit_word_of (execute_command (file :: rest) protect oc wc) =
    Some (wait_status op) ->
  (exists w' before,
     execute_command (file :: rest) protect oc wc = Exits 1 w' /\
     trace w' =
       trace wc ++ before ++
       [Call_execvp file (file :: rest);
        Out_perror "Command execution failed" (execvp_errno oc)]) /\
  fst (wait_for pid op wp) = Exited 1 /\
  reports_of pid (fst (wait_for pid op wp)) (wait_errno op) =
    [Out_printf "[Shell] Process exited with status %d\n" [1]].
Proof.
  intros Hfork Hexec Hpid Hret Hword.
  destruct (execute_command_in_child (file :: rest) protect oc wc Hfork)
    as (w0 & E & _ & T0).
  destruct (child_branch_runs (file :: rest) protect oc w0)
    as (_ & _ & _ & _ & _ & B & notes & _ & T).
  apply Z.eqb_neq in Hexec. rewrite Hexec in B, T.
  rewrite E, B in Hword. cbn [exit_word_of] in Hword.
  assert (Hoc : fst (wait_for pid op wp) = Exited 1).
  { apply (wait_for_answer pid op wp (ChildExit 1)); [assumption|reflexivity|].
    cbn. split; [assumption|]. now injection Hword as <-. }
  split; [|split; [assumption|now rewrite Hoc]].
  exists (world_of (child_branch (file :: rest) protect oc w0)).
  exists ([Enter_execute_command (file :: rest) protect;
           Call_isatty STDIN_FILENO; Call_fork; Call_setpgid 0 0;
           Call_sigaction SIGTSTP SIG_DFL;
           Call_sigaction SIGINT (if negb (protect =? 0) then SIG_IGN else SIG_DFL)]
          ++ notes).
  split; [rewrite E; exact B|].
  rewrite T, T0. now flatten_trace.
Qed.

Lemma exec_failure_is_exit_1_witness :
  fst (wait_for 200 (mkOracle 200 0 200 0 200 256 0 0 0) tty_world) = Exited 1.
Proof.
  destruct (exec_failure_is_exit_1 "nope123" [] 0 200
              (mkOracle 0 0 200 2 0 0 0 0 0)
              (mkOracle 200 0 200 0 200 256 0 0 0) tty_world tty_world)
    as (_ & H & _).
  - reflexivity.
  - discriminate.
  - reflexivity.
  - reflexivity.
  - vm_compute. reflexivity.
  - exact H.
Defined.

End ExecFailure.

(** ** Tokens and built-ins *)

Section Dispatch.

Lemma strlen_zero (s : string) : strlen s = 0 -> s = EmptyString.
Proof.
  destruct s as [|c s]; [reflexivity|]. cbn [strlen].
  assert (0 <= strlen s) by (induction s; cbn [strlen]; lia). lia.
Qed.

Lemma parse_command_count (cmd : string) :
  fst (parse_command cmd) = Z.of_nat (length (snd (parse_command cmd))).
Proof. unfold parse_command. now destruct (strtok cmd delims). Qed.

Lemma parse_command_empty (cmd : string) :
  fst (parse_command cmd) = 0 <-> snd (parse_command cmd) = [].
Proof.
  rewrite parse_command_count.
  destruct (snd (parse_command cmd)); cbn [length]; split;
    (reflexivity || discriminate || lia).
Qed.

Lemma handle_builtin_null (o : Oracle) (w : World) :
  handle_builtin [] o w = (1, w).
Proof. reflexivity. Qed.

Lemma handle_builtin_external (arg0 : string) (rest : list string)
  (o : Oracle) (w : World) :
  is_builtin arg0 = false -> handle_builtin (arg0 :: rest) o w = (0, w).
Proof.
  unfold is_builtin, handle_builtin. rewrite !orb_false_iff.
  now intros [[-> ->] ->].
Qed.

(** What [handle_builtin] answers and what it leaves behind. *)
Lemma handle_builtin_runs (args : list string) (o : Oracle) (w : World) :
  let r := fst (handle_builtin args o w) in
  let w' := snd (handle_builtin args o w) in
  (r = 0 \/ r = 1 \/ r = 2) /\
  (r = 0 -> w' = w /\ args <> []) /\
  same_state w w' /\
  exists evs, forallb is_plain evs = true /\ trace w' = trace w ++ evs.
Proof.
  cbv zeta. unfold handle_builtin, help_text, same_state.
  destruct args as [|arg0 rest]; cbn [fst snd].
  { repeat split; try tauto; try lia. exists []. now rewrite app_nil_r. }
  destruct (strcmp arg0 "exit" =? 0); [|destruct (strcmp arg0 "help" =? 0);
    [|destruct (strcmp arg0 "cd" =? 0); [destruct rest as [|arg1 rest]|]]];
    kernel; try destruct (chdir_ret o =? 0) eqn:E; kernel; rewrite ?E;
    cbn [negb]; kernel; flatten_trace;
    (split; [lia|]); (split; [try (intros; lia); split; congruence|]);
    (split; [tauto|]);
    solve [ eexists; split; [|reflexivity]; reflexivity
          | exists []; split; [reflexivity | now rewrite app_nil_r] ].
Qed.

End Dispatch.

(** ** One command, seen from the prompt loop *)

Section OneCommand.

Variables (args : list string) (protect : Z) (o : Oracle) (w : World).

(** The core records its entry once and never the prompt. *)
Lemma execute_command_trace :
  exists evs,
    trace (world_of (execute_command args protect o w)) =
      trace w ++ Enter_execute_command args protect :: evs /\
    forallb is_inner evs = true.
Proof.
  destruct (Z.lt_trichotomy (fork_ret o) 0) as [H|[H|H]].
  - destruct (execute_command_fork_failed args protect o w H) as (w' & -> & _ & T).
    eexists. split; [exact T|reflexivity].
  - destruct (execute_command_in_child args protect o w H) as (w0 & -> & _ & T0).
    destruct (child_branch_runs args protect o w0)
      as (_ & _ & _ & _ & _ & _ & notes & Hn & T).
    exists ([Call_isatty STDIN_FILENO; Call_fork] ++
            [Call_setpgid 0 0; Call_sigaction SIGTSTP SIG_DFL;
             Call_sigaction SIGINT (if negb (protect =? 0) then SIG_IGN else SIG_DFL)]
            ++ notes ++
            match args with
            | [] => []
            | file :: _ =>
                Call_execvp file args ::
                (if execvp_errno o =? 0 then []
                 else [Out_perror "Command execution failed" (execvp_errno o)])
            end).
    split; [rewrite T, T0; now flatten_trace|].
    check_events. destruct args; [reflexivity|].
    now destruct (execvp_errno o =? 0).
  - apply Z.lt_gt, Z.gt_lt in H.
    destruct (execute_command_in_parent args protect o w H) as (w0 & -> & _ & T0).
    destruct (parent_branch_runs (fork_ret o) protect o w0) as (_ & notes & Hn & T).
    exists ([Call_isatty STDIN_FILENO; Call_fork] ++ notes ++
            tty_calls (stdin_tty w0) (fork_ret o) ++
            [Call_waitpid (fork_ret o) WUNTRACED] ++
            reports_of (fork_ret o) (oracle_outcome o) (wait_errno o) ++
            tty_calls (stdin_tty w0) (shell_pgid w0)).
    split; [cbn [world_of]; rewrite T, T0; now flatten_trace|].
    check_events.
Qed.

(** When the core returns, it is the shell that returns: its dispositions
    are the ones it had and it installed none. *)
Lemma execute_command_returns (w' : World) :
  execute_command args protect o w = Returns w' ->
  sigdisp w' = sigdisp w /\ stdin_tty w' = stdin_tty w /\
  shell_pgid w' = shell_pgid w /\ self_pgrp w' = self_pgrp w /\
  exists evs, trace w' = trace w ++ evs /\
              forallb (fun e => negb (is_install e)) evs = true.
Proof.
  destruct (Z.lt_trichotomy (fork_ret o) 0) as [H|[H|H]].
  - destruct (execute_command_fork_failed args protect o w H) as (w1 & -> & S & T).
    intros [= <-]. unfold same_state in S.
    repeat (split; [tauto|]). eexists. split; [exact T|reflexivity].
  - destruct (execute_command_in_child args protect o w H) as (w0 & -> & _ & _).
    destruct (child_branch_runs args protect o w0) as (_ & _ & _ & _ & _ & -> & _).
    destruct args; [discriminate|]. now destruct (execvp_errno o =? 0).
  - apply Z.lt_gt, Z.gt_lt in H.
    destruct (execute_command_in_parent args protect o w H) as (w0 & -> & S0 & T0).
    destruct (parent_branch_runs (fork_ret o) protect o w0) as (S & notes & Hn & T).
    intros [= <-]. unfold same_state in S, S0. kernel.
    repeat (split; [intuition congruence|]).
    exists ([Enter_execute_command args protect; Call_isatty STDIN_FILENO; Call_fork]
            ++ notes ++
            tty_calls (stdin_tty w0) (fork_ret o) ++
            [Call_waitpid (fork_ret o) WUNTRACED] ++
            reports_of (fork_ret o) (oracle_outcome o) (wait_errno o) ++
            tty_calls (stdin_tty w0) (shell_pgid w0)).
    split; [rewrite T, T0; now flatten_trace|].
    check_events.
Qed.

(** A NULL is read only when the vector is empty. *)
Lemma execute_command_fault (w' : World) :
  execute_command args protect o w = Fault w' -> args = [].
Proof.
  destruct (Z.lt_trichotomy (fork_ret o) 0) as [H|[H|H]].
  - destruct (execute_command_fork_failed args protect o w H) as (w1 & -> & _).
    discriminate.
  - destruct (execute_command_in_child args protect o w H) as (w0 & -> & _ & _).
    destruct (child_branch_runs args protect o w0) as (_ & _ & _ & _ & _ & -> & _).
    destruct args; [reflexivity|]. now destruct (execvp_errno o =? 0).
  - apply Z.lt_gt, Z.gt_lt in H.
    destruct (execute_command_in_parent args protect o w H) as (w0 & -> & _).
    discriminate.
Qed.

End OneCommand.

(** ** The prompt loop *)

Section PromptLoop.

(** One turn of the loop, by the vector [parse_command] produced. *)
Lemma loop_body_cases (buf : string) (o : Oracle) (w : World) :
  loop_body (Line buf o) w =
    match line_args buf with
    | [] => Continue (prompt w)
    | arg0 :: rest =>
        let r := fst (handle_builtin (arg0 :: rest) o (prompt w)) in
        let w1 := snd (handle_builtin (arg0 :: rest) o (prompt w)) in
        if r =? 2 then Break w1
        else if r =? 1 then Continue w1
        else
          match execute_command (arg0 :: rest) (should_protect_sigint arg0) o w1 with
          | Returns w2 => Continue w2
          | oc => Leaves oc
          end
    end.
Proof.
  unfold loop_body, line_args. fold (line_of buf).
  destruct (strlen (line_of buf) =? 0) eqn:E.
  - apply Z.eqb_eq, strlen_zero in E. rewrite E. reflexivity.
  - pose proof (parse_command_empty (line_of buf)) as P.
    destruct (parse_command (line_of buf)) as [argc args]. cbn [fst snd] in *.
    destruct args as [|arg0 rest].
    + replace (argc =? 0) with true by (symmetry; apply Z.eqb_eq; tauto).
      reflexivity.
    + replace (argc =? 0) with false
        by (symmetry; apply Z.eqb_neq; intros K; apply P in K; discriminate).
      cbv zeta.
      now destruct (handle_builtin (arg0 :: rest) o (prompt w)) as [r w1].
Qed.

Lemma prompt_runs (w : World) :
  same_state w (prompt w) /\
  trace (prompt w) = trace w ++ [Out_printf "sigshell> " []; Call_fgets].
Proof.
  unfold prompt, same_state. kernel. flatten_trace. tauto.
Qed.

(** What a turn adds to the trace: never an entry of the core with an
    empty vector, and no new disposition when the shell goes on or leaves
    the loop. *)
Lemma loop_body_runs (i : input) (w : World) :
  (forall w', loop_body i w <> Leaves (Fault w')) /\
  exists evs,
    trace (turn_world (loop_body i w)) = trace w ++ evs /\
    select is_enter_empty evs = [] /\
    (forall w', loop_body i w = Continue w' \/ loop_body i w = Break w' ->
       sigdisp w' = sigdisp w /\
       forallb (fun e => negb (is_install e)) evs = true).
Proof.
  destruct (prompt_runs w) as (Sp & Tp).
  destruct i as [|buf o].
  { cbn [loop_body]. split; [discriminate|].
    eexists. split; [exact Tp|]. split; [reflexivity|].
    intros w' [[= <-]|[=]]. unfold same_state in Sp. split; [tauto|reflexivity]. }
  rewrite loop_body_cases.
  destruct (line_args buf) as [|arg0 rest].
  { split; [discriminate|].
    eexists. split; [exact Tp|]. split; [reflexivity|].
    intros w' [[= <-]|[=]]. unfold same_state in Sp. split; [tauto|reflexivity]. }
  cbv zeta.
  destruct (handle_builtin_runs (arg0 :: rest) o (prompt w))
    as (Hr & H0 & Sb & evb & Hb & Tb).
  set (r := fst (handle_builtin (arg0 :: rest) o (prompt w))) in *.
  set (w1 := snd (handle_builtin (arg0 :: rest) o (prompt w))) in *.
  assert (Hsel : select is_enter_empty evb = []).
  { apply (none_selected is_plain); [|assumption].
    intros [] ?; (reflexivity || discriminate || now destruct args). }
  assert (Hins : forallb (fun e => negb (is_install e)) evb = true).
  { eapply forallb_weaken; [|exact Hb]. intros [] ?; (reflexivity || discriminate). }
  assert (Hd : sigdisp w1 = sigdisp w)
    by (unfold same_state in Sb, Sp; intuition congruence).
  destruct Hr as [Hr|[Hr|Hr]]; rewrite Hr; cbn [Z.eqb Pos.eqb].
  - (* an external command *)
    destruct (H0 Hr) as [Ew _]. rewrite Ew in *.
    destruct (execute_command_trace (arg0 :: rest) (should_protect_sigint arg0)
                o (prompt w)) as (evs & T & Hin).
    pose proof (execute_command_returns (arg0 :: rest)
                  (should_protect_sigint arg0) o (prompt w)) as R.
    pose proof (execute_command_fault (arg0 :: rest)
                  (should_protect_sigint arg0) o (prompt w)) as F.
    assert (Ht : turn_world
                   match execute_command (arg0 :: rest)
                           (should_protect_sigint arg0) o (prompt w) with
                   | Returns w2 => Continue w2
                   | oc => Leaves oc
                   end =
                 world_of (execute_command (arg0 :: rest)
                             (should_protect_sigint arg0) o (prompt w))).
    { now destruct (execute_command _ _ o (prompt w)). }
    rewrite Ht, T, Tp. split.
    + intros w'. destruct (execute_command _ _ o (prompt w)) eqn:E; try discriminate.
      specialize (F _ eq_refl). discriminate.
    + exists ([Out_printf "sigshell> " []; Call_fgets] ++
              Enter_execute_command (arg0 :: rest) (should_protect_sigint arg0) :: evs).
      split; [now flatten_trace|]. split.
      * rewrite select_app.
        change (select is_enter_empty (?e :: evs)) with (select is_enter_empty evs).
        rewrite (none_selected is_inner is_enter_empty evs); [reflexivity| |assumption].
        intros [] ?; (reflexivity || discriminate || now destruct args).
      * intros w'.
        destruct (execute_command _ _ o (prompt w)) eqn:E;
          (intros [K|K]; try discriminate K).
        injection K as <-. destruct (R _ eq_refl) as (Rd & _ & _ & _ & evr & Tr & Hi).
        unfold same_state in Sp. split; [intuition congruence|].
        cbn [world_of] in T. rewrite Tr in T. apply app_inv_head in T. subst evr.
        rewrite forallb_app. now rewrite Hi.
  - (* a built-in that was served *)
    split; [discriminate|].
    exists ([Out_printf "sigshell> " []; Call_fgets] ++ evb).
    cbn [turn_world]. split; [rewrite Tb, Tp; now flatten_trace|].
    split; [now rewrite select_app, Hsel|].
    intros w' [[= <-]|[=]]. split; [assumption|]. now rewrite forallb_app, Hins.
  - (* exit *)
    split; [discriminate|].
    exists ([Out_printf "sigshell> " []; Call_fgets] ++ evb).
    cbn [turn_world]. split; [rewrite Tb, Tp; now flatten_trace|].
    split; [now rewrite select_app, Hsel|].
    intros w' [[=]|[= <-]]. split; [assumption|]. now rewrite forallb_app, Hins.
Qed.

End PromptLoop.

(** ** Failure of [fork] *)

Section ForkFailure.

(** C7.  When [fork] fails, [execute_command] reports it and returns: the
    trace gains the entry, the [isatty] query, the [fork] and the [perror]
    line, so no [tcsetpgrp] and no [waitpid]; the process, the terminal and
    the dispositions are as they were; and the prompt loop goes on with its
    next turn. *)
Theorem fork_failure_changes_nothing
  (args : list string) (protect : Z) (buf arg0 : string) (rest : list string)
  (o : Oracle) (w : World) :
  fork_ret o < 0 -> line_args buf = arg0 :: rest -> is_builtin arg0 = false ->
  (exists w',
     execute_command args protect o w = Returns w' /\
     same_state w w' /\
     trace w' =
       trace w ++ [Enter_execute_command args protect;
                   Call_isatty STDIN_FILENO; Call_fork;
                   Out_perror "fork failed" (fork_errno o)] /\
     select is_tcsetpgrp (trace w') = select is_tcsetpgrp (trace w) /\
     select is_waitpid (trace w') = select is_waitpid (trace w)) /\
  (exists w',
     loop_body (Line buf o) w = Continue w' /\
     same_state w w' /\
     trace w' =
       trace w ++ [Out_printf "sigshell> " []; Call_fgets;
                   Enter_execute_command (arg0 :: rest) (should_protect_sigint arg0);
                   Call_isatty STDIN_FILENO; Call_fork;
                   Out_perror "fork failed" (fork_errno o)]).
Proof.
  intros Hfork Hargs Hext. split.
  - destruct (execute_command_fork_failed args protect o w Hfork) as (w' & E & S & T).
    exists w'. repeat (split; [assumption|]).
    rewrite T, !select_app. cbn. now rewrite !app_nil_r.
  - rewrite loop_body_cases, Hargs. cbv zeta.
    rewrite (handle_builtin_external arg0 rest o (prompt w) Hext).
    cbn [fst snd Z.eqb].
    destruct (execute_command_fork_failed (arg0 :: rest)
                (should_protect_sigint arg0) o (prompt w) Hfork) as (w' & -> & S & T).
    destruct (prompt_runs w) as (Sp & Tp).
    exists w'. split; [reflexivity|].
    split; [exact (same_state_trans _ _ _ Sp S)|].
    rewrite T, Tp. now flatten_trace.
Qed.

Lemma fork_failure_changes_nothing_witness :
  exists w',
    loop_body (Line "ls -la" (mkOracle (-1) 11 0 0 0 0 0 0 0)) tty_world
      = Continue w' /\
    same_state tty_world w'.
Proof.
  destruct (fork_failure_changes_nothing ["ls"; "-la"] 0 "ls -la" "ls" ["-la"]
              (mkOracle (-1) 11 0 0 0 0 0 0 0) tty_world)
    as (_ & w' & E & S & _).
  - reflexivity.
  - reflexivity.
  - reflexivity.
  - exists w'. split; assumption.
Defined.

End ForkFailure.

(** ** The argument vector of the core *)

Section ArgumentVector.

Lemma main_loop_runs (ins : list input) (w : World) :
  (forall w', main_loop ins w <> Fault w') /\
  select is_enter_empty (trace (world_of (main_loop ins w))) =
    select is_enter_empty (trace w).
Proof.
  revert w. induction ins as [|i ins IH]; intros w.
  - cbn [main_loop world_of]. split; [discriminate|].
    destruct (prompt_runs w) as (_ & Tp). unfold printf; cbn [emit trace].
    rewrite Tp, !select_app. cbn. now rewrite !app_nil_r.
  - cbn [main_loop].
    destruct (loop_body_runs i w) as (F & evs & T & Hsel & _).
    destruct (loop_body i w) as [w1|w1|oc]; cbn [turn_world] in T.
    + destruct (IH w1) as (F1 & S1). split; [assumption|].
      now rewrite S1, T, select_app, Hsel, app_nil_r.
    + split; [discriminate|]. cbn [world_of].
      now rewrite T, select_app, Hsel, app_nil_r.
    + split; [intros w' ->; now apply (F w')|].
      now rewrite T, select_app, Hsel, app_nil_r.
Qed.

(** C10.  A line without tokens ends the turn at once; [handle_builtin]
    answers 1 for an empty vector and leaves the world alone; so in a whole
    session the prompt loop never enters [execute_command] with an empty
    vector (the entries with [args[0] == NULL] in the trace are those that
    were there before), and no NULL is ever read. *)
Theorem core_never_sees_empty_args
  (buf : string) (ins : list input) (o : Oracle) (w : World) :
  (line_args buf = [] -> loop_body (Line buf o) w = Continue (prompt w)) /\
  (fst (parse_command (line_of buf)) = 0 <-> line_args buf = []) /\
  handle_builtin [] o w = (1, w) /\
  select is_enter_empty (trace (world_of (main_loop ins w))) =
    select is_enter_empty (trace w) /\
  (forall w', main_loop ins w <> Fault w').
Proof.
  split; [|split; [|split; [|split]]].
  - intros H. now rewrite loop_body_cases, H.
  - apply parse_command_empty.
  - reflexivity.
  - apply main_loop_runs.
  - apply main_loop_runs.
Qed.

Lemma core_never_sees_empty_args_witness :
  line_args "   " = [] /\
  loop_body (Line "   " quiet_oracle) tty_world = Continue (prompt tty_world).
Proof.
  split; [reflexivity|].
  apply (core_never_sees_empty_args "   " [] quiet_oracle tty_world).
  reflexivity.
Defined.

End ArgumentVector.

(** ** Initialisation and the dispositions of the shell *)

Section Initialisation.

Lemma signal_ok (sig : Z) (h : sighandler) (w : World) :
  (sig <? 1) || (NSIG <=? sig) || (sig =? SIGKILL) || (sig =? SIGSTOP) = false ->
  signal sig h w =
    set_sigdisp (<[sig := h]> (sigdisp w)) (emit (Call_signal sig h) w).
Proof. intros H. unfold signal. now rewrite H. Qed.

(** The loop of [init_shell] ends as soon as the shell is in the foreground,
    with [shell_pgid] set to the shell's process group. *)
Lemma await_foreground_runs (resumes : list Z) (w : World) :
  stdin_tty w = true -> In (self_pgrp w) (tty_fg w :: resumes) ->
  exists w',
    await_foreground resumes w = Some w' /\
    same_state (set_shell_pgid (self_pgrp w) (set_tty_fg (self_pgrp w) w)) w' /\
    exists evs, trace w' = trace w ++ evs /\ forallb is_plain evs = true.
Proof.
  revert w. induction resumes as [|fg' resumes IH]; intros w Htty Hin.
  - cbn [await_foreground]. kernel.
    change (STDIN_FILENO =? STDIN_FILENO) with true. cbn [andb]. rewrite Htty.
    kernel.
    destruct (Z.eqb_spec (tty_fg w) (self_pgrp w)) as [E|E]; cbn [negb].
    + eexists. split; [reflexivity|]. unfold same_state. kernel.
      split; [intuition congruence|].
      eexists. split; [flatten_trace; reflexivity|reflexivity].
    + destruct Hin as [Hin|[]]. congruence.
  - cbn [await_foreground]. kernel.
    change (STDIN_FILENO =? STDIN_FILENO) with true. cbn [andb]. rewrite Htty.
    kernel.
    destruct (Z.eqb_spec (tty_fg w) (self_pgrp w)) as [E|E]; cbn [negb].
    + eexists. split; [reflexivity|]. unfold same_state. kernel.
      split; [intuition congruence|].
      eexists. split; [flatten_trace; reflexivity|reflexivity].
    + destruct Hin as [Hin|Hin]; [congruence|].
      match goal with
      | |- context [await_foreground resumes ?w1] =>
          destruct (IH w1) as (w' & Ew & Sw & evs & Tw & Hp)
      end.
      { kernel. assumption. }
      { kernel. assumption. }
      exists w'. split; [exact Ew|]. unfold same_state in *. kernel.
      split; [intuition congruence|].
      exists ([Call_tcgetpgrp STDIN_FILENO; Call_getpgrp;
               Call_kill (- self_pgrp w) SIGTTIN] ++ evs).
      split; [rewrite Tw; kernel; now flatten_trace|].
      now rewrite forallb_app, Hp.
Qed.

(** [init_shell] on a terminal: the five handlers it installs, and the
    calls around them. *)
Lemma init_shell_runs (resumes : list Z) (w : World) :
  stdin_tty w = true -> In (self_pgrp w) (tty_fg w :: resumes) ->
  exists w1 before after,
    init_shell resumes w = Some w1 /\
    sigdisp w1 =
      <[SIGTTOU := SIG_IGN]> (<[SIGTTIN := SIG_IGN]> (<[SIGTSTP := SIG_IGN]>
        (<[SIGQUIT := SIG_IGN]>
           (<[SIGINT := Handler "sigint_handler"]> (sigdisp w))))) /\
    stdin_tty w1 = true /\ shell_pgid w1 = self_pgrp w /\
    tty_fg w1 = self_pgrp w /\
    forallb is_plain before = true /\ forallb is_plain after = true /\
    trace w1 =
      trace w ++ before ++
      [Call_signal SIGINT (Handler "sigint_handler");
       Call_signal SIGQUIT SIG_IGN; Call_signal SIGTSTP SIG_IGN;
       Call_signal SIGTTIN SIG_IGN; Call_signal SIGTTOU SIG_IGN] ++ after.
Proof.
  intros Htty Hin. unfold init_shell.
  unfold isatty. change (STDIN_FILENO =? STDIN_FILENO) with true.
  cbn [andb emit stdin_tty]. rewrite Htty.
  destruct (await_foreground_runs resumes (emit (Call_isatty STDIN_FILENO) w))
    as (w0 & -> & S0 & evs & T0 & Hp); [exact Htty|exact Hin|].
  rewrite !signal_ok by reflexivity.
  unfold same_state in S0. cbn [emit set_tty_fg set_shell_pgid stdin_tty self_pid
    self_pgrp tty_fg tty_attrs sigdisp shell_pgid shell_tmodes] in S0.
  destruct S0 as (S1 & S2 & S3 & S4 & S5 & S6 & S7 & S8).
  match goal with
  | |- context [setpgid _ _ ?x] => set (ws := x)
  end.
  assert (Ws : stdin_tty ws = true /\ shell_pgid ws = self_pgrp w /\
               sigdisp ws =
                 <[SIGTTOU := SIG_IGN]> (<[SIGTTIN := SIG_IGN]>
                   (<[SIGTSTP := SIG_IGN]> (<[SIGQUIT := SIG_IGN]>
                      (<[SIGINT := Handler "sigint_handler"]> (sigdisp w))))) /\
               trace ws =
                 trace w ++ (Call_isatty STDIN_FILENO :: evs) ++
                 [Call_signal SIGINT (Handler "sigint_handler");
                  Call_signal SIGQUIT SIG_IGN; Call_signal SIGTSTP SIG_IGN;
                  Call_signal SIGTTIN SIG_IGN; Call_signal SIGTTOU SIG_IGN]).
  { subst ws. kernel. rewrite S1, S6, S7, T0. flatten_trace. tauto. }
  clearbody ws. destruct Ws as (W1 & W2 & W3 & W4).
  unfold setpgid, tcsetpgrp, tcgetattr.
  change (STDIN_FILENO =? STDIN_FILENO) with true. cbn [andb].
  destruct ((shell_pgid ws =? 0) || (shell_pgid ws =? self_pid (emit _ ws)));
    kernel; rewrite ?W1; kernel; rewrite ?W1; kernel;
    (eexists; exists (Call_isatty STDIN_FILENO :: evs); eexists;
     split; [reflexivity|]; kernel;
     split; [exact W3|]; split; [exact W1|]; split; [exact W2|];
     split; [exact W2|];
     split; [cbn [forallb is_plain andb]; assumption|];
     split; [|rewrite W4; flatten_trace; reflexivity]; reflexivity).
Qed.

Lemma banner_runs (w : World) :
  same_state w (banner w) /\
  exists evs, trace (banner w) = trace w ++ evs /\ forallb is_output evs = true.
Proof.
  unfold banner, same_state. kernel. flatten_trace.
  split; [tauto|]. eexists. split; reflexivity.
Qed.

(** The shell's own turns install nothing. *)
Lemma at_prompt_keeps (w1 w : World) :
  at_prompt w1 w ->
  sigdisp w = sigdisp w1 /\
  exists evs, trace w = trace w1 ++ evs /\
              forallb (fun e => negb (is_install e)) evs = true.
Proof.
  induction 1 as [|i w w' _ (D & evs & T & Hi) E].
  - destruct (banner_runs w1) as (S & evs & T & Ho).
    unfold same_state in S. split; [tauto|].
    exists evs. split; [assumption|].
    eapply forallb_weaken; [|exact Ho]. intros [] ?; (reflexivity || discriminate).
  - destruct (loop_body_runs i w) as (_ & evs' & T' & _ & K).
    destruct (K w' (or_introl E)) as (D' & Hi').
    rewrite E in T'. cbn [turn_world] in T'.
    split; [congruence|].
    exists (evs ++ evs'). split; [rewrite T', T; now rewrite app_assoc|].
    now rewrite forallb_app, Hi, Hi'.
Qed.

(** Whenever the loop is left by [exit] or at the end of input, it is the
    shell that leaves it, with the dispositions it entered the loop with. *)
Lemma main_loop_returns (ins : list input) (w w' : World) :
  main_loop ins w = Returns w' -> sigdisp w' = sigdisp w.
Proof.
  revert w. induction ins as [|i ins IH]; intros w.
  - cbn [main_loop]. intros [= <-]. unfold prompt. kernel. reflexivity.
  - cbn [main_loop].
    destruct (loop_body_runs i w) as (_ & evs & _ & _ & K).
    destruct (loop_body i w) as [w1|w1|oc] eqn:E.
    + intros H. rewrite (IH _ H). now apply (K w1); left.
    + intros [= <-]. now apply (K w1); right.
    + intros ->.
      assert (Hi : exists o buf, i = Line buf o).
      { destruct i as [|buf o]; [discriminate|]. eauto. }
      destruct Hi as (o & buf & ->). rewrite loop_body_cases in E.
      destruct (line_args buf) as [|arg0 rest]; [discriminate|]. cbv zeta in E.
      destruct (handle_builtin_runs (arg0 :: rest) o (prompt w))
        as (_ & _ & Sb & _).
      destruct (_ =? 2); [discriminate|]. destruct (_ =? 1); [discriminate|].
      destruct (execute_command _ _ o _) eqn:X; try discriminate.
Qed.

End Initialisation.

Section DelegatedSignals.

Lemma ignores_delegated_from (d : gmap Z sighandler) (w : World) :
  sigdisp w =
    <[SIGTTOU := SIG_IGN]> (<[SIGTTIN := SIG_IGN]> (<[SIGTSTP := SIG_IGN]>
      (<[SIGQUIT := SIG_IGN]> d))) ->
  ignores_delegated w.
Proof.
  intros D. unfold ignores_delegated, delegated, disposition. rewrite D.
  repeat constructor;
    repeat (rewrite lookup_insert_ne by discriminate);
    now rewrite lookup_insert_eq.
Qed.

Lemma ignores_delegated_same (w w' : World) :
  sigdisp w' = sigdisp w -> ignores_delegated w -> ignores_delegated w'.
Proof.
  unfold ignores_delegated, disposition. now intros ->.
Qed.

(** C8 as the spec states it fails when standard input is no terminal:
    [init_shell] then installs nothing, and the four signals keep the
    disposition the shell was started with (here the default action). *)
Lemma init_shell_without_terminal :
  init_disposition [] piped_world SIGQUIT = Some SIG_DFL /\
  init_disposition [] piped_world SIGTSTP = Some SIG_DFL /\
  init_disposition [] piped_world SIGTTIN = Some SIG_DFL /\
  init_disposition [] piped_world SIGTTOU = Some SIG_DFL.
Proof. repeat split; reflexivity. Qed.

(** C8, as the code has it.  On a terminal, once the shell is in the
    foreground, [init_shell] returns with SIGQUIT, SIGTSTP, SIGTTIN and
    SIGTTOU ignored, each installed by exactly one call and before any
    prompt; at every later prompt of the shell they are still ignored, no
    call having installed a disposition in between; and they are ignored
    when the shell leaves its loop, whatever the input was. *)
Theorem delegated_signals_ignored_on_terminal (resumes : list Z) (w : World) :
  stdin_tty w = true -> In (self_pgrp w) (tty_fg w :: resumes) ->
  exists w1,
    init_shell resumes w = Some w1 /\
    ignores_delegated w1 /\
    (forall sig, In sig delegated ->
       select (installs sig) (trace w1) =
         select (installs sig) (trace w) ++ [Call_signal sig SIG_IGN]) /\
    select is_prompt (trace w1) = select is_prompt (trace w) /\
    (forall w', at_prompt w1 w' ->
       ignores_delegated w' /\
       forall sig, select (installs sig) (trace w') =
                   select (installs sig) (trace w1)) /\
    (forall ins w', main_loop ins (banner w1) = Returns w' ->
       ignores_delegated w').
Proof.
  intros Htty Hin.
  destruct (init_shell_runs resumes w Htty Hin)
    as (w1 & before & after & E & D & _ & _ & _ & Hb & Ha & T).
  exists w1. split; [assumption|].
  assert (I1 : ignores_delegated w1) by (eapply ignores_delegated_from; exact D).
  split; [assumption|]. split; [|split; [|split]].
  - intros sig Hsig. rewrite T, !select_app.
    rewrite (none_selected is_plain (installs sig) before),
            (none_selected is_plain (installs sig) after);
      try assumption; try (intros [] ?; (reflexivity || discriminate)).
    cbn [app]. rewrite app_nil_r. f_equal.
    cbn in Hsig. destruct Hsig as [<-|[<-|[<-|[<-|[]]]]]; reflexivity.
  - rewrite T, !select_app.
    rewrite (none_selected is_plain is_prompt before),
            (none_selected is_plain is_prompt after);
      try assumption; try (intros [] ?; (reflexivity || discriminate)).
    cbn. now rewrite app_nil_r.
  - intros w' Hw'. destruct (at_prompt_keeps w1 w' Hw') as (D' & evs & T' & Hi).
    split; [now apply (ignores_delegated_same w1)|].
    intros sig. rewrite T', select_app.
    rewrite (none_selected (fun e => negb (is_install e)) (installs sig) evs);
      [now rewrite app_nil_r| |assumption].
    intros [] ?; (reflexivity || discriminate).
  - intros ins w' Hw'. apply (ignores_delegated_same w1); [|assumption].
    rewrite (main_loop_returns ins _ _ Hw').
    destruct (banner_runs w1) as (S & _). unfold same_state in S. tauto.
Qed.

Lemma delegated_signals_ignored_on_terminal_witness :
  stdin_tty tty_world = true /\
  In (self_pgrp tty_world) (tty_fg tty_world :: []) /\
  exists w1, init_shell [] tty_world = Some w1 /\ ignores_delegated w1.
Proof.
  split; [reflexivity|]. split; [now left|].
  destruct (delegated_signals_ignored_on_terminal [] tty_world)
    as (w1 & E & I & _).
  - reflexivity.
  - now left.
  - exists w1. split; assumption.
Defined.

End DelegatedSignals.

(** * Further properties *)

Import Session.

(** ** [parse_command] *)

Section Tokens.

Lemma skip_delims_head (s : string) :
  match skip_delims delims s with
  | EmptyString => all_delims s = true
  | String c _ => is_delim c = false /\ all_delims s = false
  end.
Proof.
  induction s as [|c s IH]; cbn [skip_delims all_delims]; [reflexivity|].
  fold (is_delim c). destruct (is_delim c) eqn:E; cbn [andb].
  - destruct (skip_delims delims s); [assumption|]. tauto.
  - now rewrite E.
Qed.

Lemma skip_delims_strip (s : string) : strip (skip_delims delims s) = strip s.
Proof.
  induction s as [|c s IH]; cbn [skip_delims strip]; [reflexivity|].
  fold (is_delim c). destruct (is_delim c) eqn:E; [assumption|].
  cbn [strip]. now rewrite E.
Qed.

Lemma strip_all_delims (s : string) : all_delims s = true -> strip s = EmptyString.
Proof.
  induction s as [|c s IH]; cbn [all_delims strip]; [reflexivity|].
  destruct (is_delim c); [exact IH|discriminate].
Qed.

(** The word [scan_token] cuts off holds no blank, and nothing but the
    blank that closed it is lost. *)
Lemma scan_token_word (s : string) :
  delim_free (fst (scan_token delims s)) = true /\
  strip s = fst (scan_token delims s) +:+ strip (snd (scan_token delims s)).
Proof.
  induction s as [|c s (IH1 & IH2)]; cbn [scan_token strip]; [split; reflexivity|].
  fold (is_delim c). destruct (is_delim c) eqn:E.
  - cbn [fst snd delim_free String.append]. split; reflexivity.
  - destruct (scan_token delims s) as [t r]. cbn [fst snd] in *.
    cbn [delim_free String.append]. rewrite E, IH1, IH2. split; reflexivity.
Qed.

Lemma strtok_word (s : string) :
  match fst (strtok s delims) with
  | None => all_delims s = true
  | Some t =>
      is_word t = true /\ all_delims s = false /\
      strip s = t +:+ strip (snd (strtok s delims))
  end.
Proof.
  unfold strtok. pose proof (skip_delims_head s) as H.
  pose proof (skip_delims_strip s) as K.
  destruct (skip_delims delims s) as [|c s1]; [exact H|].
  destruct H as (Hc & Hs).
  pose proof (scan_token_word (String c s1)) as (W1 & W2).
  destruct (scan_token delims (String c s1)) as [t r] eqn:E. cbn [fst snd] in *.
  split; [|split; [assumption|congruence]].
  cbn [scan_token] in E. fold (is_delim c) in E. rewrite Hc in E.
  destruct (scan_token delims s1). injection E as <- <-. exact W1.
Qed.

Lemma parse_loop_length (room : nat) (token : option string) (saved : string) :
  (length (parse_loop room token saved) <= room)%nat.
Proof.
  revert token saved. induction room as [|room IH]; intros [t|] saved;
    cbn [parse_loop length]; try lia.
  destruct (strtok saved delims) as [token' saved']. cbn [length].
  specialize (IH token' saved'). lia.
Qed.

Lemma parse_loop_words (room : nat) (token : option string) (saved : string) :
  match token with Some t => is_word t = true | None => True end ->
  forallb is_word (parse_loop room token saved) = true.
Proof.
  revert token saved. induction room as [|room IH]; intros [t|] saved Ht;
    cbn [parse_loop forallb]; try reflexivity.
  pose proof (strtok_word saved) as H.
  destruct (strtok saved delims) as [token' saved']. cbn [fst snd forallb] in *.
  rewrite Ht, IH; [reflexivity|]. destruct token'; tauto.
Qed.

(** X1.  [parse_command] never fills more than [MAX_ARGS - 1] slots, so the
    terminating NULL it stores at index [i] lies inside the array, and the
    number it returns is the number of arguments it stored. *)
Theorem parse_command_fits (cmd : string) :
  0 <= fst (parse_command cmd) <= MAX_ARGS - 1 /\
  fst (parse_command cmd) = Z.of_nat (length (snd (parse_command cmd))).
Proof.
  unfold parse_command. destruct (strtok cmd delims) as [token saved].
  cbn [fst snd]. pose proof (parse_loop_length (Z.to_nat (MAX_ARGS - 1)) token saved).
  unfold MAX_ARGS in *. lia.
Qed.

(** X2.  Every argument [parse_command] stores is a word: it is not empty
    and holds no space, tab or newline. *)
Theorem parse_command_words (cmd : string) :
  forallb is_word (snd (parse_command cmd)) = true.
Proof.
  unfold parse_command. pose proof (strtok_word cmd) as H.
  destruct (strtok cmd delims) as [token saved]. cbn [fst snd] in *.
  apply parse_loop_words. destruct token; tauto.
Qed.

(** X3.  [parse_command] returns 0 exactly for the lines made of blanks
    only (the empty line among them). *)
Theorem parse_command_blank (cmd : string) :
  fst (parse_command cmd) = 0 <-> all_delims cmd = true.
Proof.
  rewrite parse_command_empty. unfold parse_command.
  pose proof (strtok_word cmd) as H.
  destruct (strtok cmd delims) as [[t|] saved]; cbn [fst snd] in *.
  - change (Z.to_nat (MAX_ARGS - 1)) with 63%nat. cbn [parse_loop].
    destruct (strtok saved delims). destruct H as (_ & -> & _).
    split; discriminate.
  - rewrite H. cbn. tauto.
Qed.

End Tokens.

Section Words.

Lemma append_cons (c : ascii) (t r : string) :
  String c t +:+ r = String c (t +:+ r).
Proof. reflexivity. Qed.

Lemma scan_token_append (t r : string) :
  delim_free t = true ->
  scan_token delims (t +:+ String " "%char r) = (t, r).
Proof.
  induction t as [|c t IH]; cbn [delim_free].
  - reflexivity.
  - rewrite append_cons. cbn [scan_token].
    fold (is_delim c). destruct (is_delim c); [discriminate|]. cbn [negb andb].
    intros H. now rewrite (IH H).
Qed.

Lemma scan_token_whole (t : string) :
  delim_free t = true -> scan_token delims t = (t, EmptyString).
Proof.
  induction t as [|c t IH]; cbn [delim_free scan_token]; [reflexivity|].
  fold (is_delim c). destruct (is_delim c); [discriminate|]. cbn [negb andb].
  intros H. now rewrite (IH H).
Qed.

Lemma strtok_join (t : string) (words : list string) :
  is_word t = true ->
  strtok (join (t :: words)) delims = (Some t, join words).
Proof.
  intros Ht. destruct t as [|c t]; [discriminate|]. cbn [is_word] in Ht.
  assert (Hc : is_delim c = false).
  { cbn [delim_free] in Ht. now destruct (is_delim c). }
  unfold strtok. destruct words as [|t' words]; cbn [join].
  - cbn [skip_delims]. fold (is_delim c). rewrite Hc.
    now rewrite scan_token_whole.
  - rewrite append_cons. cbn [skip_delims]. fold (is_delim c). rewrite Hc.
    rewrite <- append_cons. now rewrite scan_token_append.
Qed.

Lemma parse_loop_join (room : nat) (t : string) (words : list string) :
  forallb is_word (t :: words) = true ->
  parse_loop room (Some t) (join words) = firstn room (t :: words).
Proof.
  revert t words. induction room as [|room IH]; intros t words H;
    [reflexivity|].
  cbn [parse_loop firstn]. cbn [forallb] in H. apply andb_true_iff in H as [Ht Hw].
  destruct words as [|t' words].
  - cbn [join]. change (strtok EmptyString delims) with (@None string, EmptyString).
    f_equal. now destruct room.
  - cbn [forallb] in Hw. pose proof Hw as Hw'. apply andb_true_iff in Hw' as [Ht' _].
    rewrite (strtok_join t' words Ht'). f_equal. now apply IH.
Qed.

(** X4.  Words written with one space between them are read back as they
    are, up to the first [MAX_ARGS - 1] of them: the words beyond the 63rd
    are dropped without notice. *)
Theorem parse_command_join (words : list string) :
  forallb is_word words = true ->
  parse_command (join words) =
    (Z.of_nat (Nat.min 63 (length words)), firstn 63 words).
Proof.
  intros H. unfold parse_command. change (Z.to_nat (MAX_ARGS - 1)) with 63%nat.
  destruct words as [|t words].
  - reflexivity.
  - pose proof H as H'. cbn [forallb] in H'. apply andb_true_iff in H' as [Ht _].
    rewrite (strtok_join t words Ht), (parse_loop_join 63 t words H).
    now rewrite length_firstn.
Qed.

Lemma parse_command_join_witness :
  forallb is_word ["ls"; "-la"; "/tmp"] = true /\
  parse_command (join ["ls"; "-la"; "/tmp"]) = (3, ["ls"; "-la"; "/tmp"]).
Proof.
  split; [reflexivity|].
  apply (parse_command_join ["ls"; "-la"; "/tmp"]). reflexivity.
Defined.

Lemma parse_loop_glue (room : nat) (t saved : string) :
  (length (parse_loop room (Some t) saved) < room)%nat ->
  glue (parse_loop room (Some t) saved) = t +:+ strip saved.
Proof.
  revert t saved. induction room as [|room IH]; intros t saved; [cbn; lia|].
  cbn [parse_loop]. pose proof (strtok_word saved) as H.
  destruct (strtok saved delims) as [[t'|] saved']; cbn [fst snd] in H.
  - cbn [length glue]. intros L. destruct H as (_ & _ & ->).
    rewrite IH by lia. reflexivity.
  - intros _. destruct room; cbn [parse_loop glue];
      now rewrite (strip_all_delims saved H).
Qed.

(** X5.  As long as the line has fewer than [MAX_ARGS - 1] words, nothing
    but blanks is lost and nothing is reordered: the arguments put end to
    end are the line without its spaces, tabs and newlines. *)
Theorem parse_command_keeps_text (cmd : string) :
  fst (parse_command cmd) < MAX_ARGS - 1 ->
  glue (snd (parse_command cmd)) = strip cmd.
Proof.
  rewrite parse_command_count. unfold parse_command.
  pose proof (strtok_word cmd) as H.
  destruct (strtok cmd delims) as [[t|] saved]; cbn [fst snd] in *.
  - intros L. destruct H as (_ & _ & ->).
    apply parse_loop_glue. unfold MAX_ARGS in *. lia.
  - intros _. change (Z.to_nat (MAX_ARGS - 1)) with 63%nat. cbn [parse_loop glue].
    now rewrite (strip_all_delims cmd H).
Qed.

Lemma parse_command_keeps_text_witness :
  fst (parse_command "  echo   a b ") < MAX_ARGS - 1 /\
  glue (snd (parse_command "  echo   a b ")) = "echoab".
Proof.
  split; [reflexivity|].
  apply (parse_command_keeps_text "  echo   a b "). reflexivity.
Defined.

End Words.

(** ** The line [main] reads *)

Section Lines.

Lemma strcspn_newline_free (s rest : string) :
  newline_free s = true ->
  store_nul (strcspn (s +:+ rest) newline) (s +:+ rest) =
    s +:+ store_nul (strcspn rest newline) rest.
Proof.
  induction s as [|c s IH]; cbn [newline_free]; [reflexivity|].
  rewrite !append_cons. cbn [strcspn].
  destruct (mem_char c newline); [discriminate|]. cbn [negb andb store_nul].
  intros H. now rewrite (IH H).
Qed.

Lemma append_empty (s : string) : s +:+ EmptyString = s.
Proof. induction s as [|c s IH]; [reflexivity|]. now rewrite append_cons, IH. Qed.

(** X6.  The text [main] hands to [parse_command] is what was typed: the
    newline [fgets] leaves at the end of the buffer is cut off, a buffer
    without one (a last line, or one longer than the buffer) is taken as it
    is, and whatever the buffer holds the text has no newline left in it. *)
Theorem line_of_typed (s buf : string) :
  newline_free s = true ->
  line_of (s +:+ newline) = s /\ line_of s = s /\
  newline_free (line_of buf) = true.
Proof.
  intros H. unfold line_of. split; [|split].
  - rewrite (strcspn_newline_free s newline H). apply append_empty.
  - rewrite <- (append_empty s) at 1 2.
    rewrite (strcspn_newline_free s EmptyString H). apply append_empty.
  - clear. induction buf as [|c buf IH]; [reflexivity|].
    cbn [strcspn]. destruct (mem_char c newline) eqn:E; [reflexivity|].
    cbn [store_nul newline_free]. now rewrite E, IH.
Qed.

Lemma line_of_typed_witness :
  newline_free "ls -la" = true /\ line_of ("ls -la" +:+ newline) = "ls -la".
Proof.
  split; [reflexivity|].
  apply (line_of_typed "ls -la" EmptyString). reflexivity.
Defined.

End Lines.

(** ** Built-in commands *)

Section Builtins.

(** X7.  [handle_builtin] decides on the first argument alone, by exact
    comparison: it answers 2 for ["exit"] and nothing else, 1 for ["help"]
    and ["cd"], 0 for every other name, whatever arguments follow. *)
Theorem handle_builtin_by_name
  (arg0 : string) (rest : list string) (o : Oracle) (w : World) :
  nul_free arg0 = true ->
  (fst (handle_builtin (arg0 :: rest) o w) = 2 <-> arg0 = "exit") /\
  (fst (handle_builtin (arg0 :: rest) o w) = 1 <->
     arg0 = "help" \/ arg0 = "cd") /\
  (fst (handle_builtin (arg0 :: rest) o w) = 0 <->
     arg0 <> "exit" /\ arg0 <> "help" /\ arg0 <> "cd").
Proof.
  intros Hn. unfold handle_builtin.
  pose proof (strcmp_eqb_iff arg0 "exit" Hn eq_refl) as He.
  pose proof (strcmp_eqb_iff arg0 "help" Hn eq_refl) as Hh.
  pose proof (strcmp_eqb_iff arg0 "cd" Hn eq_refl) as Hc.
  destruct (strcmp arg0 "exit" =? 0).
  { assert (arg0 = "exit") as -> by tauto. cbn [fst].
    repeat split; intros; try (discriminate || tauto || lia).
    destruct H; discriminate. }
  destruct (strcmp arg0 "help" =? 0).
  { assert (arg0 = "help") as -> by tauto. cbn [fst].
    repeat split; intros; try (discriminate || tauto || lia). }
  destruct (strcmp arg0 "cd" =? 0).
  { assert (arg0 = "cd") as -> by tauto.
    assert (F : fst (match rest with
                     | [] => (1, fprintf_stderr "cd: missing argument\n" w)
                     | arg1 :: _ =>
                         let '(r, w0) := chdir arg1 o w in
                         (1, if negb (r =? 0) then perror "cd failed" w0 else w0)
                     end) = 1).
    { destruct rest as [|arg1 rest']; [reflexivity|].
      now destruct (chdir arg1 o w). }
    rewrite F. repeat split; intros; try (discriminate || tauto || lia). }
  cbn [fst].
  assert (arg0 <> "exit") by (intros K; apply He in K; discriminate).
  assert (arg0 <> "help") by (intros K; apply Hh in K; discriminate).
  assert (arg0 <> "cd") by (intros K; apply Hc in K; discriminate).
  repeat split; intros; try (discriminate || tauto || lia).
Qed.

Lemma handle_builtin_by_name_witness :
  nul_free "exit" = true /\
  fst (handle_builtin ["exit"; "now"] quiet_oracle tty_world) = 2.
Proof.
  split; [reflexivity|].
  apply (handle_builtin_by_name "exit" ["now"] quiet_oracle tty_world);
    reflexivity.
Defined.

(** X8.  A built-in runs inside the shell: [handle_builtin] leaves the
    process, the terminal and the dispositions as they are and makes no call
    but output and [chdir]; it calls [chdir] only for ["cd"] followed by an
    argument, once, on that argument, and writes the [perror] line exactly
    when that call fails. *)
Theorem handle_builtin_in_shell
  (arg0 : string) (rest : list string) (o : Oracle) (w : World) :
  nul_free arg0 = true ->
  let w' := snd (handle_builtin (arg0 :: rest) o w) in
  same_state w w' /\
  exists evs,
    trace w' = trace w ++ evs /\
    forallb (fun e => is_output e || is_chdir e) evs = true /\
    select is_chdir evs =
      match rest with
      | dir :: _ => if strcmp arg0 "cd" =? 0 then [Call_chdir dir] else []
      | [] => []
      end /\
    (forall dir rest', arg0 = "cd" -> rest = dir :: rest' ->
       evs = Call_chdir dir ::
             (if chdir_ret o =? 0 then []
              else [Out_perror "cd failed" (chdir_errno o)])).
Proof.
  intros Hn. cbv zeta. unfold handle_builtin, help_text.
  pose proof (strcmp_eqb_iff arg0 "exit" Hn eq_refl) as He.
  pose proof (strcmp_eqb_iff arg0 "help" Hn eq_refl) as Hh.
  pose proof (strcmp_eqb_iff arg0 "cd" Hn eq_refl) as Hc.
  destruct (strcmp arg0 "exit" =? 0) eqn:Ee.
  { assert (arg0 = "exit") as -> by tauto. cbn [snd]. split.
    - unfold same_state. kernel. tauto.
    - eexists. kernel. split; [reflexivity|]. split; [reflexivity|].
      split; [now destruct rest|]. discriminate. }
  destruct (strcmp arg0 "help" =? 0) eqn:Eh.
  { assert (arg0 = "help") as -> by tauto. cbn [snd]. split.
    - unfold same_state. kernel. tauto.
    - eexists. kernel. flatten_trace. split; [reflexivity|].
      split; [reflexivity|]. split; [now destruct rest|]. discriminate. }
  destruct (strcmp arg0 "cd" =? 0) eqn:Ec.
  { assert (arg0 = "cd") as -> by tauto.
    destruct rest as [|dir rest']; cbn [snd].
    - split; [unfold same_state; kernel; tauto|].
      eexists. kernel. split; [reflexivity|]. split; [reflexivity|].
      split; [reflexivity|]. discriminate.
    - unfold same_state. kernel.
      destruct (chdir_ret o =? 0) eqn:E; kernel; rewrite ?E; cbn [negb]; kernel;
        (split; [tauto|]); flatten_trace;
        (eexists; split; [reflexivity|]; split; [reflexivity|];
         split; [reflexivity|]; intros d r _ [= <- <-]; reflexivity). }
  cbn [snd]. split; [apply same_state_refl|].
  exists []. rewrite app_nil_r. split; [reflexivity|]. split; [reflexivity|].
  split; [now destruct rest|].
  intros dir rest' K. apply Hc in K. discriminate.
Qed.

Lemma handle_builtin_in_shell_witness :
  nul_free "cd" = true /\
  same_state tty_world
    (snd (handle_builtin ["cd"; "/tmp"] quiet_oracle tty_world)).
Proof.
  split; [reflexivity|].
  apply (handle_builtin_in_shell "cd" ["/tmp"] quiet_oracle tty_world).
  reflexivity.
Defined.

End Builtins.

(** ** [init_shell] *)

Section Foreground.

Lemma await_foreground_blocks (resumes : list Z) (w : World) :
  stdin_tty w = true -> ~ In (self_pgrp w) (tty_fg w :: resumes) ->
  await_foreground resumes w = None.
Proof.
  revert w. induction resumes as [|fg' resumes IH]; intros w Htty Hin;
    cbn [await_foreground]; kernel;
    change (STDIN_FILENO =? STDIN_FILENO) with true; cbn [andb];
    rewrite Htty; kernel;
    (destruct (Z.eqb_spec (tty_fg w) (self_pgrp w)) as [E|E];
     [exfalso; apply Hin; now left|]); cbn [negb].
  - reflexivity.
  - apply IH; kernel; [assumption|].
    intros K. apply Hin. now right.
Qed.

Lemma await_foreground_kills (resumes : list Z) (w : World) :
  stdin_tty w = true -> In (self_pgrp w) (tty_fg w :: resumes) ->
  exists w',
    await_foreground resumes w = Some w' /\
    select is_kill (trace w') =
      select is_kill (trace w) ++
      repeat (Call_kill (- self_pgrp w) SIGTTIN)
             (failed_checks (self_pgrp w) (tty_fg w :: resumes)).
Proof.
  revert w. induction resumes as [|fg' resumes IH]; intros w Htty Hin;
    cbn [await_foreground failed_checks]; kernel;
    change (STDIN_FILENO =? STDIN_FILENO) with true; cbn [andb];
    rewrite Htty; kernel;
    destruct (Z.eqb_spec (tty_fg w) (self_pgrp w)) as [E|E]; cbn [negb].
  - eexists. split; [reflexivity|]. kernel.
    rewrite !select_app. cbn. now rewrite !app_nil_r.
  - destruct Hin as [Hin|[]]. congruence.
  - eexists. split; [reflexivity|]. kernel.
    rewrite !select_app. cbn. now rewrite !app_nil_r.
  - destruct Hin as [Hin|Hin]; [congruence|].
    match goal with
    | |- context [await_foreground resumes ?w1] =>
        destruct (IH w1) as (w' & -> & K)
    end.
    { kernel. assumption. }
    { kernel. assumption. }
    exists w'. split; [reflexivity|]. rewrite K. kernel.
    rewrite !select_app. cbn [select List.filter is_kill app repeat].
    rewrite !app_nil_r, <- app_assoc. reflexivity.
Qed.

(** X9.  On a terminal [init_shell] stays in its loop exactly when no
    check sees the shell in the foreground ([None]: it is never resumed
    there): it returns as soon as one check finds the terminal's foreground
    group equal to its own. *)
Theorem init_shell_blocks (resumes : list Z) (w : World) :
  stdin_tty w = true ->
  (init_shell resumes w = None <-> ~ In (self_pgrp w) (tty_fg w :: resumes)).
Proof.
  intros Htty. split.
  - intros E Hin.
    destruct (init_shell_runs resumes w Htty Hin) as (w1 & _ & _ & E1 & _).
    congruence.
  - intros Hin. unfold init_shell.
    unfold isatty. change (STDIN_FILENO =? STDIN_FILENO) with true.
    cbn [andb emit stdin_tty]. rewrite Htty.
    now rewrite (await_foreground_blocks resumes
                   (emit (Call_isatty STDIN_FILENO) w) Htty Hin).
Qed.

Lemma init_shell_blocks_witness :
  stdin_tty tty_world = true /\ init_shell [7; 8] (set_tty_fg 5 tty_world) = None.
Proof.
  split; [reflexivity|].
  apply (init_shell_blocks [7; 8] (set_tty_fg 5 tty_world)); [reflexivity|].
  cbn. intros [H|[H|[H|[]]]]; discriminate H.
Defined.

(** What [init_shell] does once the loop has ended in the world [w0]. *)
Lemma init_shell_after_loop (resumes : list Z) (w w0 : World) :
  stdin_tty w = true -> stdin_tty w0 = true ->
  await_foreground resumes (emit (Call_isatty STDIN_FILENO) w) = Some w0 ->
  exists w1,
    init_shell resumes w = Some w1 /\
    sigdisp w1 = shell_dispositions (sigdisp w0) /\
    stdin_tty w1 = true /\ shell_pgid w1 = shell_pgid w0 /\
    tty_fg w1 = shell_pgid w0 /\ shell_tmodes w1 = tty_attrs w0 /\
    self_pid w1 = self_pid w0 /\
    (shell_pgid w0 = self_pgrp w0 -> self_pgrp w0 <> 0 ->
     self_pgrp w1 = self_pgrp w0) /\
    trace w1 =
      trace w0 ++
      [Call_signal SIGINT (Handler "sigint_handler");
       Call_signal SIGQUIT SIG_IGN; Call_signal SIGTSTP SIG_IGN;
       Call_signal SIGTTIN SIG_IGN; Call_signal SIGTTOU SIG_IGN;
       Call_setpgid (shell_pgid w0) (shell_pgid w0);
       Call_tcsetpgrp STDIN_FILENO (shell_pgid w0);
       Call_tcgetattr STDIN_FILENO].
Proof.
  intros Htty Htty0 E. unfold init_shell.
  unfold isatty. change (STDIN_FILENO =? STDIN_FILENO) with true.
  cbn [andb emit stdin_tty]. rewrite Htty, E.
  rewrite !signal_ok by reflexivity.
  match goal with
  | |- context [setpgid _ _ ?x] => set (ws := x)
  end.
  assert (Ws : stdin_tty ws = true /\ shell_pgid ws = shell_pgid w0 /\
               sigdisp ws = shell_dispositions (sigdisp w0) /\
               tty_attrs ws = tty_attrs w0 /\ self_pid ws = self_pid w0 /\
               self_pgrp ws = self_pgrp w0 /\
               trace ws =
                 trace w0 ++
                 [Call_signal SIGINT (Handler "sigint_handler");
                  Call_signal SIGQUIT SIG_IGN; Call_signal SIGTSTP SIG_IGN;
                  Call_signal SIGTTIN SIG_IGN; Call_signal SIGTTOU SIG_IGN]).
  { subst ws. unfold shell_dispositions. kernel. rewrite Htty0.
    flatten_trace. tauto. }
  clearbody ws. destruct Ws as (W1 & W2 & W3 & W4 & W5 & W6 & W7).
  unfold setpgid, tcsetpgrp, tcgetattr.
  change (STDIN_FILENO =? STDIN_FILENO) with true. cbn [andb].
  destruct ((shell_pgid ws =? 0) || (shell_pgid ws =? self_pid (emit _ ws))) eqn:C;
    kernel; rewrite ?W1; kernel; rewrite ?W1; kernel;
    (eexists; split; [reflexivity|]; kernel;
     split; [exact W3|]; split; [exact W1|]; split; [exact W2|];
     split; [exact W2|]; split; [exact W4|]; split; [exact W5|];
     split; [|rewrite W7, W2; flatten_trace; reflexivity]).
  - intros P Q. rewrite W2, P.
    destruct (Z.eqb_spec (self_pgrp w0) 0); [contradiction|reflexivity].
  - intros _ _. exact W6.
Qed.

(** X10.  On a terminal, once the shell is seen in the foreground,
    [init_shell] returns with the shell owning the terminal: [shell_pgid] is
    its process group and the terminal's foreground group, SIGINT goes to
    [sigint_handler], and [shell_tmodes] holds the terminal's settings.  It
    has sent its group one SIGTTIN per check that failed, and none after. *)
Theorem init_shell_takes_terminal (resumes : list Z) (w : World) :
  stdin_tty w = true -> self_pgrp w <> 0 ->
  In (self_pgrp w) (tty_fg w :: resumes) ->
  exists w1,
    init_shell resumes w = Some w1 /\
    owns_terminal w1 /\
    self_pgrp w1 = self_pgrp w /\ self_pid w1 = self_pid w /\
    shell_tmodes w1 = tty_attrs w /\
    select is_kill (trace w1) =
      select is_kill (trace w) ++
      repeat (Call_kill (- self_pgrp w) SIGTTIN)
             (failed_checks (self_pgrp w) (tty_fg w :: resumes)).
Proof.
  intros Htty Hpg Hin.
  set (wi := emit (Call_isatty STDIN_FILENO) w).
  destruct (await_foreground_runs resumes wi Htty Hin) as (w0 & E & S0 & _).
  destruct (await_foreground_kills resumes wi Htty Hin) as (w0' & E' & K).
  rewrite E in E'. injection E' as <-.
  unfold same_state in S0. subst wi. kernel.
  destruct S0 as (S1 & S2 & S3 & S4 & S5 & S6 & S7 & S8).
  assert (Htty0 : stdin_tty w0 = true) by congruence.
  destruct (init_shell_after_loop resumes w w0 Htty Htty0 E)
    as (w1 & E1 & D & T1 & P1 & F1 & M1 & I1 & G1 & Tr).
  exists w1. split; [assumption|].
  assert (G : self_pgrp w1 = self_pgrp w) by (rewrite G1; congruence).
  split; [|split; [assumption|split; [congruence|split; [congruence|]]]].
  - unfold owns_terminal. repeat split; try congruence.
    unfold disposition. rewrite D. unfold shell_dispositions.
    repeat (rewrite lookup_insert_ne by discriminate).
    now rewrite lookup_insert_eq.
  - rewrite Tr, select_app, K, !select_app. cbn. now rewrite !app_nil_r.
Qed.

Lemma init_shell_takes_terminal_witness :
  exists w1,
    init_shell [7; 100] (set_tty_fg 5 tty_world) = Some w1 /\ owns_terminal w1.
Proof.
  destruct (init_shell_takes_terminal [7; 100] (set_tty_fg 5 tty_world))
    as (w1 & E & O & _).
  - reflexivity.
  - discriminate.
  - cbn. tauto.
  - exists w1. split; assumption.
Defined.

End Foreground.

(** ** [execute_command], both sides of the [fork] *)

Section BothSides.

Variables (args : list string) (protect : Z) (o : Oracle) (w : World).

Lemma select_tty_calls (tty : bool) (pgid : Z) :
  select is_tcsetpgrp (tty_calls tty pgid) =
    if tty then [Call_tcsetpgrp STDIN_FILENO pgid] else [].
Proof. now destruct tty. Qed.

(** X11.  The parent brackets its one [waitpid] with the terminal: on a
    terminal it makes the child's pid the foreground group before it waits
    and its own group after, and these are its only [tcsetpgrp] calls;
    without a terminal it makes neither and only waits. *)
Theorem terminal_handed_over :
  0 < fork_ret o ->
  exists w' notes,
    execute_command args protect o w = Returns w' /\
    forallb is_output notes = true /\
    trace w' =
      trace w ++
      [Enter_execute_command args protect; Call_isatty STDIN_FILENO; Call_fork] ++
      notes ++ tty_calls (stdin_tty w) (fork_ret o) ++
      [Call_waitpid (fork_ret o) WUNTRACED] ++
      reports_of (fork_ret o) (oracle_outcome o) (wait_errno o) ++
      tty_calls (stdin_tty w) (shell_pgid w) /\
    select is_tcsetpgrp (trace w') =
      select is_tcsetpgrp (trace w) ++
      (if stdin_tty w
       then [Call_tcsetpgrp STDIN_FILENO (fork_ret o);
             Call_tcsetpgrp STDIN_FILENO (shell_pgid w)]
       else []).
Proof.
  intros Hpid.
  destruct (execute_command_in_parent args protect o w Hpid) as (w0 & E & S0 & T0).
  destruct (parent_branch_runs (fork_ret o) protect o w0) as (_ & notes & Hn & T).
  assert (Htty : stdin_tty w0 = stdin_tty w) by (unfold same_state in S0; tauto).
  assert (Hpg : shell_pgid w0 = shell_pgid w) by (unfold same_state in S0; tauto).
  rewrite Htty, Hpg in T.
  exists (parent_branch (fork_ret o) protect o w0), notes.
  split; [assumption|]. split; [assumption|].
  assert (Tr : trace (parent_branch (fork_ret o) protect o w0) =
    trace w ++
    [Enter_execute_command args protect; Call_isatty STDIN_FILENO; Call_fork] ++
    notes ++ tty_calls (stdin_tty w) (fork_ret o) ++
    [Call_waitpid (fork_ret o) WUNTRACED] ++
    reports_of (fork_ret o) (oracle_outcome o) (wait_errno o) ++
    tty_calls (stdin_tty w) (shell_pgid w)).
  { rewrite T, T0. now flatten_trace. }
  split; [exact Tr|].
  rewrite Tr, !select_app, !select_tty_calls.
  rewrite (none_selected is_output is_tcsetpgrp notes) by
    (assumption || (intros [] ?; (reflexivity || discriminate))).
  rewrite (none_selected is_output is_tcsetpgrp (reports_of _ _ _)) by
    (apply reports_are_output || (intros [] ?; (reflexivity || discriminate))).
  f_equal. now destruct (stdin_tty w).
Qed.

Lemma child_branch_keeps :
  stdin_tty (world_of (child_branch args protect o w)) = stdin_tty w /\
  tty_attrs (world_of (child_branch args protect o w)) = tty_attrs w /\
  shell_tmodes (world_of (child_branch args protect o w)) = shell_tmodes w.
Proof.
  unfold child_branch.
  rewrite setpgid_self. rewrite sigaction_ok by reflexivity.
  destruct (protect =? 0); cbn [negb];
    rewrite sigaction_ok by reflexivity; cbn [snd];
    destruct args as [|file rest]; kernel;
    try destruct (execvp_errno o =? 0); cbn [Z.ltb Z.compare world_of];
    kernel; tauto.
Qed.

(** X12.  The child never comes back into the shell's code: it ends in
    the executed program or, when [execvp] fails, in [exit(1)].  Before
    anything else it has put itself in a process group of its own, named by
    its pid, and it never touches the terminal's foreground group. *)
Theorem child_leaves_the_shell (file : string) (rest : list string) :
  fork_ret o = 0 -> args = file :: rest ->
  let w' := child_world args o w protect in
  execute_command args protect o w =
    (if execvp_errno o =? 0 then Execs file args w' else Exits 1 w') /\
  self_pid w' = child_pid o /\ self_pgrp w' = child_pid o /\
  tty_fg w' = tty_fg w /\
  exists after,
    trace w' =
      trace w ++
      [Enter_execute_command args protect; Call_isatty STDIN_FILENO; Call_fork;
       Call_setpgid 0 0] ++ after /\
    select is_tcsetpgrp after = [].
Proof.
  intros Hfork Hargs. cbv zeta. unfold child_world.
  destruct (execute_command_in_child args protect o w Hfork) as (w0 & -> & S0 & T0).
  destruct (child_branch_runs args protect o w0)
    as (_ & P & G & F & _ & B & notes & Hn & T).
  unfold same_state in S0. kernel.
  rewrite Hargs in B, T. rewrite <- Hargs in B, T.
  split; [exact B|].
  split; [intuition congruence|]. split; [intuition congruence|].
  split; [intuition congruence|].
  exists ([Call_sigaction SIGTSTP SIG_DFL;
           Call_sigaction SIGINT (if negb (protect =? 0) then SIG_IGN else SIG_DFL)]
          ++ notes ++
          Call_execvp file args ::
          (if execvp_errno o =? 0 then []
           else [Out_perror "Command execution failed" (execvp_errno o)])).
  split; [rewrite T, T0; now flatten_trace|].
  rewrite !select_app.
  rewrite (none_selected is_passive is_tcsetpgrp notes) by
    (assumption || (intros [] ?; (reflexivity || discriminate))).
  now destruct (execvp_errno o =? 0).
Qed.

(** X13.  The child changes two dispositions and no more: SIGTSTP and
    SIGINT.  Every other signal keeps the disposition the shell had when it
    forked, so the child of a shell that ignores SIGQUIT, SIGTTIN and SIGTTOU
    runs its program with those three still ignored. *)
Theorem child_inherits_dispositions :
  fork_ret o = 0 ->
  (forall sig, sig <> SIGINT -> sig <> SIGTSTP ->
     disposition (child_world args o w protect) sig = disposition w sig) /\
  (ignores_delegated w ->
   Forall (fun sig =>
             disposition_after_exec (child_world args o w protect) sig = SIG_IGN)
          [SIGQUIT; SIGTTIN; SIGTTOU]).
Proof.
  intros Hfork.
  assert (K : forall sig, sig <> SIGINT -> sig <> SIGTSTP ->
     disposition (child_world args o w protect) sig = disposition w sig).
  { intros sig H1 H2. unfold disposition.
    rewrite (child_dispositions args o w protect Hfork).
    now rewrite !lookup_insert_ne by congruence. }
  split; [exact K|].
  intros I. unfold ignores_delegated, delegated in I.
  inversion I as [|? ? Q I1]; subst. inversion I1 as [|? ? _ I2]; subst.
  inversion I2 as [|? ? N I3]; subst. inversion I3 as [|? ? U _]; subst.
  unfold disposition_after_exec.
  repeat constructor; rewrite K by discriminate;
    [rewrite Q | rewrite N | rewrite U]; reflexivity.
Qed.

End BothSides.

Lemma terminal_handed_over_witness :
  exists w',
    execute_command ["cat"] 0 quiet_oracle tty_world = Returns w' /\
    select is_tcsetpgrp (trace w') =
      [Call_tcsetpgrp STDIN_FILENO 200; Call_tcsetpgrp STDIN_FILENO 0].
Proof.
  destruct (terminal_handed_over ["cat"] 0 quiet_oracle tty_world)
    as (w' & notes & E & _ & _ & S); [reflexivity|].
  exists w'. split; [exact E | exact S].
Defined.

Lemma child_leaves_the_shell_witness :
  execute_command ["nope123"] 0 (mkOracle 0 0 201 2 0 0 0 0 0) tty_world =
    Exits 1 (child_world ["nope123"] (mkOracle 0 0 201 2 0 0 0 0 0) tty_world 0).
Proof.
  destruct (child_leaves_the_shell ["nope123"] 0 (mkOracle 0 0 201 2 0 0 0 0 0)
              tty_world "nope123" []) as (E & _); [reflexivity|reflexivity|].
  exact E.
Defined.

Lemma child_inherits_dispositions_witness :
  disposition
    (child_world ["cat"] (mkOracle 0 0 201 0 0 0 0 0 0)
       (set_sigdisp (shell_dispositions ∅) tty_world) 0) SIGQUIT = SIG_IGN.
Proof.
  destruct (child_inherits_dispositions ["cat"] 0 (mkOracle 0 0 201 0 0 0 0 0 0)
              (set_sigdisp (shell_dispositions ∅) tty_world)) as (K & _);
    [reflexivity|].
  rewrite (K SIGQUIT); [reflexivity|discriminate|discriminate].
Defined.

(** ** One turn of the prompt loop, in any process *)

Section Turns.

Lemma tty_calls_off (pgid : Z) :
  forallb (fun e => negb (is_terminal_call e)) (tty_calls false pgid) = true.
Proof. reflexivity. Qed.

Lemma inner_follow_policy (evs : list event) :
  forallb is_inner evs = true -> forallb entry_follows_policy evs = true.
Proof.
  apply forallb_weaken. intros [] ?; (reflexivity || discriminate).
Qed.

Lemma owns_terminal_same (w w' : World) :
  same_state w w' -> owns_terminal w -> owns_terminal w'.
Proof.
  unfold same_state, owns_terminal, disposition.
  intros (S1 & S2 & S3 & S4 & S5 & S6 & S7 & S8) (O1 & O2 & O3 & O4).
  rewrite S1, S4, S7, S3, S6. tauto.
Qed.

Lemma handle_builtin_events (args : list string) (o : Oracle) (w : World) :
  exists evs,
    trace (snd (handle_builtin args o w)) = trace w ++ evs /\
    forallb (fun e => is_output e || is_chdir e) evs = true.
Proof.
  unfold handle_builtin, help_text.
  destruct args as [|arg0 rest]; cbn [snd].
  { exists []. now rewrite app_nil_r. }
  destruct (strcmp arg0 "exit" =? 0); [|destruct (strcmp arg0 "help" =? 0);
    [|destruct (strcmp arg0 "cd" =? 0); [destruct rest as [|arg1 rest]|]]];
    kernel; try destruct (chdir_ret o =? 0) eqn:E; kernel; rewrite ?E;
    cbn [negb]; kernel; flatten_trace;
    solve [ eexists; split; reflexivity
          | exists []; split; [now rewrite app_nil_r | reflexivity] ].
Qed.

(** The core, whichever process runs it. *)
Lemma execute_command_turn (args : list string) (protect : Z) (o : Oracle)
  (w : World) :
  let oc := execute_command args protect o w in
  stdin_tty (world_of oc) = stdin_tty w /\
  (exists evs,
     trace (world_of oc) = trace w ++ Enter_execute_command args protect :: evs /\
     forallb is_inner evs = true /\
     (stdin_tty w = false ->
      forallb (fun e => negb (is_terminal_call e)) evs = true)) /\
  (fork_ret o <> 0 -> exists w', oc = Returns w') /\
  (forall w', oc = Returns w' -> owns_terminal w -> owns_terminal w').
Proof.
  cbv zeta. destruct (Z.lt_trichotomy (fork_ret o) 0) as [H|[H|H]].
  - destruct (execute_command_fork_failed args protect o w H) as (w' & -> & S & T).
    cbn [world_of]. split; [unfold same_state in S; tauto|]. split; [|split].
    + eexists. split; [exact T|]. split; reflexivity.
    + intros _. now exists w'.
    + intros w1 [= <-]. now apply owns_terminal_same.
  - destruct (execute_command_in_child args protect o w H) as (w0 & -> & S0 & T0).
    destruct (child_branch_runs args protect o w0)
      as (_ & _ & _ & _ & _ & B & notes & Hn & T).
    destruct (child_branch_keeps args protect o w0) as (K & _).
    unfold same_state in S0. kernel.
    split; [intuition congruence|]. split; [|split].
    + exists ([Call_isatty STDIN_FILENO; Call_fork] ++
              [Call_setpgid 0 0; Call_sigaction SIGTSTP SIG_DFL;
               Call_sigaction SIGINT (if negb (protect =? 0) then SIG_IGN else SIG_DFL)]
              ++ notes ++
              match args with
              | [] => []
              | file :: _ =>
                  Call_execvp file args ::
                  (if execvp_errno o =? 0 then []
                   else [Out_perror "Command execution failed" (execvp_errno o)])
              end).
      split; [rewrite T, T0; now flatten_trace|].
      assert (Hin : forallb is_inner notes = true).
      { eapply forallb_weaken; [|exact Hn]. intros [] ?; (reflexivity || discriminate). }
      assert (Hte : forallb (fun e => negb (is_terminal_call e)) notes = true).
      { eapply forallb_weaken; [|exact Hn]. intros [] ?; (reflexivity || discriminate). }
      split; [|intros _]; rewrite !forallb_app, ?Hin, ?Hte; cbn [forallb andb];
        (destruct args; [reflexivity|]; now destruct (execvp_errno o =? 0)).
    + intros K'. congruence.
    + intros w' E. rewrite B in E.
      destruct args; [discriminate|]. now destruct (execvp_errno o =? 0).
  - apply Z.lt_gt, Z.gt_lt in H.
    destruct (execute_command_in_parent args protect o w H) as (w0 & -> & S0 & T0).
    destruct (parent_branch_runs (fork_ret o) protect o w0) as (S & notes & Hn & T).
    cbn [world_of]. unfold same_state in S, S0. kernel.
    split; [intuition congruence|]. split; [|split].
    + exists ([Call_isatty STDIN_FILENO; Call_fork] ++ notes ++
              tty_calls (stdin_tty w0) (fork_ret o) ++
              [Call_waitpid (fork_ret o) WUNTRACED] ++
              reports_of (fork_ret o) (oracle_outcome o) (wait_errno o) ++
              tty_calls (stdin_tty w0) (shell_pgid w0)).
      split; [rewrite T, T0; now flatten_trace|]. split; [check_events|].
      intros Htty. replace (stdin_tty w0) with false by intuition congruence.
      rewrite !forallb_app, !tty_calls_off.
      rewrite (forallb_weaken is_output (fun e => negb (is_terminal_call e)) notes);
        [|intros [] ?; (reflexivity || discriminate)|assumption].
      rewrite (forallb_weaken is_output (fun e => negb (is_terminal_call e))
                 (reports_of _ _ _));
        [reflexivity|intros [] ?; (reflexivity || discriminate)
        |apply reports_are_output].
    + intros _. eauto.
    + intros w' [= <-] (O1 & O2 & O3 & O4).
      assert (Htty : stdin_tty w0 = true) by intuition congruence.
      rewrite Htty in S. unfold owns_terminal, disposition.
      destruct S as (A1 & A2 & A3 & A4 & A5 & A6 & A7 & A8).
      destruct S0 as (B1 & B2 & B3 & B4 & B5 & B6 & B7 & B8).
      rewrite A1, A4, A7, A3, A6, B3, B6, B7. unfold disposition in O4. tauto.
Qed.

(** One turn. *)
Lemma loop_body_turn (i : input) (w : World) :
  let t := loop_body i w in
  stdin_tty (turn_world t) = stdin_tty w /\
  (exists evs,
     trace (turn_world t) = trace w ++ evs /\
     forallb entry_follows_policy evs = true /\
     (stdin_tty w = false ->
      forallb (fun e => negb (is_terminal_call e)) evs = true)) /\
  (in_shell i = true -> exists w', t = Continue w' \/ t = Break w') /\
  (forall w', t = Continue w' \/ t = Break w' ->
     owns_terminal w -> owns_terminal w').
Proof.
  cbv zeta. destruct (prompt_runs w) as (Sp & Tp).
  assert (Blank : forall t, t = Continue (prompt w) ->
    stdin_tty (turn_world t) = stdin_tty w /\
    (exists evs,
       trace (turn_world t) = trace w ++ evs /\
       forallb entry_follows_policy evs = true /\
       (stdin_tty w = false ->
        forallb (fun e => negb (is_terminal_call e)) evs = true)) /\
    (exists w', t = Continue w' \/ t = Break w') /\
    (forall w', t = Continue w' \/ t = Break w' ->
       owns_terminal w -> owns_terminal w')).
  { intros t ->. cbn [turn_world]. split; [unfold same_state in Sp; tauto|].
    split; [|split].
    - eexists. split; [exact Tp|]. split; reflexivity.
    - eauto.
    - intros w' [[= <-]|[=]]. now apply owns_terminal_same. }
  destruct i as [|buf o].
  { destruct (Blank (loop_body ReadError w) eq_refl) as (A & B & C & D). tauto. }
  rewrite loop_body_cases.
  destruct (line_args buf) as [|arg0 rest].
  { destruct (Blank (Continue (prompt w)) eq_refl) as (A & B & C & D). tauto. }
  cbv zeta.
  destruct (handle_builtin_runs (arg0 :: rest) o (prompt w))
    as (Hr & H0 & Sb & evb & Hb & Tb).
  set (r := fst (handle_builtin (arg0 :: rest) o (prompt w))) in *.
  set (w1 := snd (handle_builtin (arg0 :: rest) o (prompt w))) in *.
  assert (Twb : trace w1 = trace w ++ [Out_printf "sigshell> " []; Call_fgets] ++ evb).
  { rewrite Tb, Tp. now flatten_trace. }
  assert (Pb : forallb entry_follows_policy
                 ([Out_printf "sigshell> " []; Call_fgets] ++ evb) = true).
  { rewrite forallb_app. cbn [forallb andb entry_follows_policy].
    eapply forallb_weaken; [|exact Hb]. intros [] ?; (reflexivity || discriminate). }
  assert (Nb : forallb (fun e => negb (is_terminal_call e))
                 ([Out_printf "sigshell> " []; Call_fgets] ++ evb) = true).
  { destruct (handle_builtin_events (arg0 :: rest) o (prompt w)) as (evb' & Tb' & Hb').
    fold w1 in Tb'. rewrite Tb in Tb'. apply app_inv_head in Tb'. subst evb'.
    rewrite forallb_app. cbn [forallb andb is_terminal_call negb].
    eapply forallb_weaken; [|exact Hb']. intros [] ?; (reflexivity || discriminate). }
  assert (Sw : same_state w w1) by exact (same_state_trans _ _ _ Sp Sb).
  destruct Hr as [Hr|[Hr|Hr]]; rewrite Hr; cbn [Z.eqb Pos.eqb].
  - destruct (H0 Hr) as [Ew _].
    destruct (execute_command_turn (arg0 :: rest) (should_protect_sigint arg0) o w1)
      as (Ktty & (evs & T & Hin & Hte) & Kret & Kown).
    assert (Ht : turn_world
                   match execute_command (arg0 :: rest)
                           (should_protect_sigint arg0) o w1 with
                   | Returns w2 => Continue w2
                   | oc => Leaves oc
                   end =
                 world_of (execute_command (arg0 :: rest)
                             (should_protect_sigint arg0) o w1)).
    { now destruct (execute_command _ _ o w1). }
    rewrite Ht. split; [unfold same_state in Sw; intuition congruence|].
    split; [|split].
    + exists (([Out_printf "sigshell> " []; Call_fgets] ++ evb) ++
              Enter_execute_command (arg0 :: rest) (should_protect_sigint arg0)
              :: evs).
      split; [rewrite T, Twb; now rewrite <- !app_assoc|].
      split.
      * rewrite forallb_app, Pb. cbn [forallb entry_follows_policy andb].
        now rewrite Z.eqb_refl, (inner_follow_policy evs Hin).
      * intros Htty. rewrite forallb_app, Nb. cbn [forallb is_terminal_call negb andb].
        apply Hte. unfold same_state in Sw. intuition congruence.
    + cbn [in_shell]. intros Hs. destruct Kret as (w' & ->).
      { intros K. rewrite K in Hs. discriminate. }
      eauto.
    + intros w'. destruct (execute_command _ _ o w1) eqn:E;
        (intros [K|K]; try discriminate K).
      injection K as <-. intros O. apply (Kown _ eq_refl).
      now apply (owns_terminal_same w).
  - cbn [turn_world]. split; [unfold same_state in Sw; tauto|]. split; [|split].
    + eexists. split; [exact Twb|]. split; [exact Pb|intros _; exact Nb].
    + eauto.
    + intros w' [[= <-]|[=]]. now apply owns_terminal_same.
  - cbn [turn_world]. split; [unfold same_state in Sw; tauto|]. split; [|split].
    + eexists. split; [exact Twb|]. split; [exact Pb|intros _; exact Nb].
    + eauto.
    + intros w' [[=]|[= <-]]. now apply owns_terminal_same.
Qed.

(** A turn is left through [Leaves] only by a process that does not
    return from the core. *)
Lemma loop_body_leaves (i : input) (w : World) (oc : outcome) :
  loop_body i w = Leaves oc -> forall w', oc <> Returns w'.
Proof.
  destruct i as [|buf o]; [discriminate|].
  rewrite loop_body_cases.
  destruct (line_args buf) as [|arg0 rest]; [discriminate|]. cbv zeta.
  destruct (_ =? 2); [discriminate|]. destruct (_ =? 1); [discriminate|].
  destruct (execute_command _ _ o _); intros [= <-] w'; discriminate.
Qed.

(** A whole loop. *)
Lemma main_loop_session (ins : list input) (w : World) :
  stdin_tty (world_of (main_loop ins w)) = stdin_tty w /\
  (exists evs,
     trace (world_of (main_loop ins w)) = trace w ++ evs /\
     forallb entry_follows_policy evs = true /\
     (stdin_tty w = false ->
      forallb (fun e => negb (is_terminal_call e)) evs = true)) /\
  (forallb in_shell ins = true -> exists w', main_loop ins w = Returns w') /\
  (forall w', main_loop ins w = Returns w' ->
     owns_terminal w -> owns_terminal w').
Proof.
  revert w. induction ins as [|i ins IH]; intros w.
  - cbn [main_loop world_of]. destruct (prompt_runs w) as (Sp & Tp).
    unfold printf. cbn [emit stdin_tty trace].
    split; [unfold same_state in Sp; tauto|]. split; [|split].
    + eexists. split; [rewrite Tp, <- app_assoc; reflexivity|]. split; reflexivity.
    + eauto.
    + intros w' [= <-]. apply owns_terminal_same.
      unfold same_state in *. cbn [emit stdin_tty self_pid self_pgrp tty_fg
        tty_attrs sigdisp shell_pgid shell_tmodes]. exact Sp.
  - cbn [main_loop forallb].
    destruct (loop_body_turn i w) as (Ktty & (evs & T & Hp & Hn) & Ksh & Kown).
    destruct (loop_body i w) as [w1|w1|oc] eqn:E; cbn [turn_world] in *.
    + destruct (IH w1) as (Itty & (evs' & T' & Hp' & Hn') & Ish & Iown).
      split; [congruence|]. split; [|split].
      * exists (evs ++ evs'). split; [rewrite T', T; now rewrite app_assoc|].
        split; [now rewrite forallb_app, Hp, Hp'|].
        intros Htty. rewrite forallb_app, (Hn Htty), Hn'; [reflexivity|congruence].
      * intros Hs. apply andb_true_iff in Hs as [_ Hs]. now apply Ish.
      * intros w' E' O. apply (Iown _ E'). apply (Kown w1); [now left|assumption].
    + cbn [world_of]. split; [assumption|]. split; [|split].
      * eauto.
      * eauto.
      * intros w' [= <-] O. apply (Kown w1); [now right|assumption].
    + split; [assumption|]. split; [|split].
      * eauto.
      * intros Hs. apply andb_true_iff in Hs as [Hs _].
        destruct (Ksh Hs) as (w' & [K|K]); discriminate K.
      * intros w' ->. exfalso. exact (loop_body_leaves i w _ E w' eq_refl).
Qed.

End Turns.

(** ** Sessions *)

Section Sessions.

Lemma init_shell_owns (resumes : list Z) (w : World) :
  stdin_tty w = true -> self_pgrp w <> 0 ->
  In (self_pgrp w) (tty_fg w :: resumes) ->
  exists w1, init_shell resumes w = Some w1 /\ owns_terminal w1.
Proof.
  intros Htty Hpg Hin.
  set (wi := emit (Call_isatty STDIN_FILENO) w).
  destruct (await_foreground_runs resumes wi Htty Hin) as (w0 & E & S0 & _).
  unfold same_state in S0. subst wi. kernel.
  destruct S0 as (S1 & S2 & S3 & S4 & S5 & S6 & S7 & S8).
  assert (Htty0 : stdin_tty w0 = true) by congruence.
  destruct (init_shell_after_loop resumes w w0 Htty Htty0 E)
    as (w1 & E1 & D & T1 & P1 & F1 & M1 & I1 & G1 & Tr).
  exists w1. split; [assumption|].
  assert (G : self_pgrp w1 = self_pgrp w) by (rewrite G1; congruence).
  unfold owns_terminal. repeat split; try congruence.
  unfold disposition. rewrite D. unfold shell_dispositions.
  repeat (rewrite lookup_insert_ne by discriminate).
  now rewrite lookup_insert_eq.
Qed.






(** X16.  Whenever the prompt loop enters the core, the vector is not
    empty and the flag it passes is the answer of [should_protect_sigint] on
    the vector's first argument, which is 0 or 1. *)
Theorem entries_follow_policy (ins : list input) (w : World) (cmd : string) :
  (should_protect_sigint cmd = 0 \/ should_protect_sigint cmd = 1) /\
  exists evs,
    trace (world_of (main_loop ins w)) = trace w ++ evs /\
    forallb entry_follows_policy evs = true.
Proof.
  split.
  - unfold should_protect_sigint, protected. cbn [protected_scan].
    destruct (_ =? 0); [tauto|]. destruct (_ =? 0); tauto.
  - destruct (main_loop_session ins w) as (_ & (evs & T & P & _) & _).
    now exists evs.
Qed.

Lemma init_shell_no_tty (resumes : list Z) (w : World) :
  stdin_tty w = false ->
  init_shell resumes w =
    Some (set_errno ENOTTY (emit (Call_isatty STDIN_FILENO) w)).
Proof.
  intros Htty. unfold init_shell, isatty.
  change (STDIN_FILENO =? STDIN_FILENO) with true.
  cbn [andb emit stdin_tty]. now rewrite Htty.
Qed.

Lemma main_world (oc : outcome) :
  world_of match oc with
           | Returns w => Exits 0 w
           | Exits status w => Exits status w
           | Execs file argv w => Execs file argv w
           | Fault w => Fault w
           end = world_of oc.
Proof. now destruct oc. Qed.

(** X17.  A shell whose standard input is no terminal never waits in
    [init_shell] and, through the whole session and in every process it
    becomes, makes no [tcsetpgrp], [tcgetpgrp], [tcgetattr] or [kill] call. *)
Theorem no_terminal_no_terminal_call
  (resumes : list Z) (ins : list input) (w : World) :
  stdin_tty w = false ->
  exists oc evs,
    main resumes ins w = Some oc /\
    trace (world_of oc) = trace w ++ evs /\
    forallb (fun e => negb (is_terminal_call e)) evs = true.
Proof.
  intros Htty. unfold main. rewrite (init_shell_no_tty resumes w Htty).
  set (w0 := set_errno ENOTTY (emit (Call_isatty STDIN_FILENO) w)).
  assert (T0 : trace w0 = trace w ++ [Call_isatty STDIN_FILENO]) by reflexivity.
  assert (Htty' : stdin_tty w0 = false) by exact Htty.
  clearbody w0.
  destruct (banner_runs w0) as (Sb & evb & Tb & Hb).
  destruct (main_loop_session ins (banner w0)) as (_ & (evs & T & _ & N) & _).
  assert (Htty0 : stdin_tty (banner w0) = false).
  { unfold same_state in Sb. intuition congruence. }
  specialize (N Htty0).
  eexists. exists ([Call_isatty STDIN_FILENO] ++ evb ++ evs).
  split; [reflexivity|].
  rewrite main_world, T, Tb, T0. split; [now rewrite <- !app_assoc|].
  rewrite !forallb_app, N. cbn [forallb is_terminal_call negb andb].
  rewrite (forallb_weaken is_output (fun e => negb (is_terminal_call e)) evb);
    [reflexivity|intros [] ?; (reflexivity || discriminate)|assumption].
Qed.

Lemma no_terminal_no_terminal_call_witness :
  exists oc evs,
    main [] [Line "cat" quiet_oracle] piped_world = Some oc /\
    trace (world_of oc) = trace piped_world ++ evs /\
    forallb (fun e => negb (is_terminal_call e)) evs = true.
Proof.
  apply (no_terminal_no_terminal_call [] [Line "cat" quiet_oracle] piped_world).
  reflexivity.
Defined.

End Sessions.

(** ** Lines, from the prompt to the child *)

Section LinesToChild.

Lemma protect_flag (arg0 : string) :
  nul_free arg0 = true ->
  (should_protect_sigint arg0 =? 0) =
    negb (String.eqb arg0 "sleep" || String.eqb arg0 "critical").
Proof.
  intros Hn. unfold should_protect_sigint, protected. cbn [protected_scan].
  pose proof (strcmp_eqb_iff arg0 "sleep" Hn eq_refl) as Hs.
  pose proof (strcmp_eqb_iff arg0 "critical" Hn eq_refl) as Hk.
  destruct (String.eqb_spec arg0 "sleep") as [->|Ns]; [reflexivity|].
  destruct (String.eqb_spec arg0 "critical") as [->|Nk]; [reflexivity|].
  destruct (strcmp arg0 "sleep" =? 0); [exfalso; tauto|].
  destruct (strcmp arg0 "critical" =? 0); [exfalso; tauto|]. reflexivity.
Qed.

(** X18.  What was typed decides how the child meets Ctrl+C.  For a line
    whose first word is no built-in, the child the shell forks ignores SIGINT
    exactly when that word is ["sleep"] or ["critical"] and has the default
    action otherwise, whatever the other words are; its SIGTSTP is the
    default action in both cases. *)
Theorem line_decides_sigint
  (buf arg0 : string) (rest : list string) (o : Oracle) (w : World) :
  line_args buf = arg0 :: rest -> is_builtin arg0 = false ->
  nul_free arg0 = true -> fork_ret o = 0 ->
  let w' := turn_world (loop_body (Line buf o) w) in
  (disposition w' SIGINT = SIG_IGN <-> arg0 = "sleep" \/ arg0 = "critical") /\
  (disposition w' SIGINT = SIG_DFL <-> ~ (arg0 = "sleep" \/ arg0 = "critical")) /\
  disposition w' SIGTSTP = SIG_DFL.
Proof.
  intros Hargs Hext Hn Hfork. cbv zeta.
  rewrite loop_body_cases, Hargs. cbv zeta.
  rewrite (handle_builtin_external arg0 rest o (prompt w) Hext).
  cbn [fst snd Z.eqb].
  assert (Ht : turn_world
                 match execute_command (arg0 :: rest)
                         (should_protect_sigint arg0) o (prompt w) with
                 | Returns w2 => Continue w2
                 | oc => Leaves oc
                 end =
               child_world (arg0 :: rest) o (prompt w) (should_protect_sigint arg0)).
  { unfold child_world. destruct (execute_command _ _ o (prompt w)); reflexivity. }
  rewrite Ht. unfold disposition.
  rewrite (child_dispositions (arg0 :: rest) o (prompt w) _ Hfork).
  rewrite lookup_insert_eq, lookup_insert_ne, lookup_insert_eq by discriminate.
  cbn [default id from_option]. rewrite (protect_flag arg0 Hn).
  destruct (String.eqb_spec arg0 "sleep") as [->|Ns]; cbn [orb negb].
  { repeat split; intros; try (discriminate || tauto). }
  destruct (String.eqb_spec arg0 "critical") as [->|Nk]; cbn [orb negb].
  { repeat split; intros; try (discriminate || tauto). }
  repeat split; intros; try (discriminate || tauto).
Qed.

Lemma line_decides_sigint_witness :
  disposition
    (turn_world (loop_body (Line "sleep 10" (mkOracle 0 0 201 0 0 0 0 0 0))
                   tty_world)) SIGINT = SIG_IGN.
Proof.
  destruct (line_decides_sigint "sleep 10" "sleep" ["10"]
              (mkOracle 0 0 201 0 0 0 0 0 0) tty_world) as ((_ & H) & _).
  - reflexivity.
  - reflexivity.
  - reflexivity.
  - reflexivity.
  - apply H. now left.
Defined.

(** X19.  ["exit"] ends the session at once, whatever follows it on the
    line and whatever input is still to come: the shell prints its farewell,
    reads no further line and [main] returns 0. *)
Theorem exit_ends_session
  (resumes : list Z) (buf : string) (rest : list string) (o : Oracle)
  (ins : list input) (w w1 : World) :
  line_args buf = "exit" :: rest -> init_shell resumes w = Some w1 ->
  main_loop (Line buf o :: ins) w = Returns (printf "Goodbye!\n" [] (prompt w)) /\
  main resumes (Line buf o :: ins) w =
    Some (Exits 0 (printf "Goodbye!\n" [] (prompt (banner w1)))).
Proof.
  intros Hargs E.
  assert (K : forall w0, main_loop (Line buf o :: ins) w0 =
                         Returns (printf "Goodbye!\n" [] (prompt w0))).
  { intros w0. cbn [main_loop]. rewrite loop_body_cases, Hargs. reflexivity. }
  split; [apply K|]. unfold main. now rewrite E, K.
Qed.

Lemma exit_ends_session_witness :
  main_loop [Line "exit now" quiet_oracle; Line "ls" quiet_oracle] tty_world =
    Returns (printf "Goodbye!\n" [] (prompt tty_world)).
Proof.
  destruct (init_shell_owns [] tty_world) as (w1 & E & _);
    [reflexivity|discriminate|now left|].
  apply (exit_ends_session [] "exit now" ["now"] quiet_oracle
           [Line "ls" quiet_oracle] tty_world w1); [reflexivity|exact E].
Defined.

End LinesToChild.
